(** * HostingDE-DynDNS: a shallow embedding of [dyndns.py]

    The development follows the source file top to bottom:

    - [PyVal]: the Python values that [json] / [toml] decoding produces and the
      handful of builtin operations the program applies to them (truthiness,
      [==], [in], [len], subscripting, [dict.get], [str]);
    - [Effects]: the state-and-exception monad in which the client and the
      handler run (the upstream provider, the log, [cherrypy.response]);
    - the class [HostingDEDNSAPIClient] ([api_request],
      [get_resource_record_id], [update_resource_record]);
    - the class [Root] ([__init__] and the exposed handler [dyndns]);
    - a scripted provider used to run the model on concrete requests;
    - the properties of the specification. *)

From Stdlib Require Import ZArith List String Ascii Bool Lia DecimalString.
Import ListNotations.
Local Open Scope string_scope.
Local Open Scope Z_scope.

(* ===================================================================== *)
(** ** Python values *)
(* ===================================================================== *)

(** Values produced by [response.json()] and [toml.load]: [None], booleans,
    integers, strings, lists and string-keyed dictionaries.  A dictionary is
    an association list in insertion order (the order [repr] prints); lookups
    take the first binding of a key.  Floating point numbers are not part of
    the model. *)
#[warnings="-register-all"]
Inductive pyval : Type :=
| PNone
| PBool (b : bool)
| PInt (n : Z)
| PStr (s : string)
| PList (l : list pyval)
| PDict (d : list (string * pyval)).

(** The exceptions the program raises or lets through. [JSONDecodeError] and
    [UnicodeDecodeError] are subclasses of [ValueError]. *)
Inductive exn : Type :=
| DNSAPIException (error_code error_data : pyval)
| ValueError (msg : string)
| JSONDecodeError
| UnicodeDecodeError
| KeyError (key : string)
| IndexError
| TypeError
| AttributeError
| RequestException.

Inductive result (A : Type) : Type :=
| Ok (a : A)
| Raise (e : exn).
Arguments Ok {A} a.
Arguments Raise {A} e.

(** [isinstance(e, ValueError)] *)
Definition is_ValueError (e : exn) : bool :=
  match e with
  | ValueError _ | JSONDecodeError | UnicodeDecodeError => true
  | _ => false
  end.

Module PyVal.

(** [bool(v)] *)
Definition truthy (v : pyval) : bool :=
  match v with
  | PNone => false
  | PBool b => b
  | PInt n => negb (n =? 0)
  | PStr s => negb (String.eqb s "")
  | PList l => match l with [] => false | _ => true end
  | PDict d => match d with [] => false | _ => true end
  end.

(** truthiness of an optional [str] / [int] parameter defaulting to [None] *)
Definition truthy_str (o : option string) : bool :=
  match o with
  | None => false
  | Some s => negb (String.eqb s "")
  end.

Definition truthy_int (o : option Z) : bool :=
  match o with
  | None => false
  | Some n => negb (n =? 0)
  end.

Definition is_list (v : pyval) : bool :=
  match v with PList _ => true | _ => false end.

(** first binding of a key in a dictionary *)
Fixpoint lookup (k : string) (d : list (string * pyval)) : option pyval :=
  match d with
  | [] => None
  | (k', v) :: d' => if String.eqb k k' then Some v else lookup k d'
  end.

(** [a == b].  Booleans are integers ([True == 1]); lists compare
    element-wise; dictionaries compare as maps. *)
Fixpoint py_eq (a b : pyval) {struct a} : bool :=
  match a, b with
  | PNone, PNone => true
  | PBool x, PBool y => Bool.eqb x y
  | PBool x, PInt n => (if x then 1 else 0) =? n
  | PInt n, PBool y => n =? (if y then 1 else 0)
  | PInt n, PInt m => n =? m
  | PStr s, PStr t => String.eqb s t
  | PList l, PList m =>
      (fix all2 (l m : list pyval) {struct l} : bool :=
         match l, m with
         | [], [] => true
         | x :: l', y :: m' => py_eq x y && all2 l' m'
         | _, _ => false
         end) l m
  | PDict d, PDict e =>
      (Nat.eqb (List.length d) (List.length e)) &&
      (fix sub (d : list (string * pyval)) : bool :=
         match d with
         | [] => true
         | (k, v) :: d' =>
             match lookup k e with
             | Some v' => py_eq v v'
             | None => false
             end && sub d'
         end) d
  | _, _ => false
  end.

(** [p in s] on strings *)
Fixpoint substringb (p s : string) : bool :=
  String.prefix p s ||
  match s with
  | EmptyString => false
  | String _ s' => substringb p s'
  end.

(** [x in c] *)
Definition py_in (x c : pyval) : result bool :=
  match c with
  | PList l => Ok (existsb (fun y => py_eq y x) l)
  | PDict d =>
      match x with
      | PStr k => Ok (match lookup k d with Some _ => true | None => false end)
      | PNone | PBool _ | PInt _ => Ok false
      | PList _ | PDict _ => Raise TypeError (* unhashable *)
      end
  | PStr s =>
      match x with
      | PStr p => Ok (substringb p s)
      | _ => Raise TypeError
      end
  | PNone | PBool _ | PInt _ => Raise TypeError
  end.

(** A byte that continues a UTF-8 encoded code point ([10xxxxxx]). *)
Definition is_continuation (c : ascii) : bool :=
  let n := nat_of_ascii c in (Nat.leb 128 n) && (Nat.ltb n 192).

(** number of code points of a UTF-8 encoded string *)
Fixpoint str_len (s : string) : Z :=
  match s with
  | EmptyString => 0
  | String c s' => (if is_continuation c then 0 else 1) + str_len s'
  end.

Fixpoint take_continuation (s : string) : string :=
  match s with
  | EmptyString => EmptyString
  | String c s' =>
      if is_continuation c then String c (take_continuation s') else EmptyString
  end.

(** [len(v)] *)
Definition py_len (v : pyval) : result Z :=
  match v with
  | PList l => Ok (Z.of_nat (List.length l))
  | PDict d => Ok (Z.of_nat (List.length d))
  | PStr s => Ok (str_len s)
  | PNone | PBool _ | PInt _ => Raise TypeError
  end.

(** [v[k]] for a string key *)
Definition getitem (v : pyval) (k : string) : result pyval :=
  match v with
  | PDict d =>
      match lookup k d with
      | Some x => Ok x
      | None => Raise (KeyError k)
      end
  | _ => Raise TypeError
  end.

(** [v[0]] *)
Definition getitem0 (v : pyval) : result pyval :=
  match v with
  | PList l =>
      match l with
      | x :: _ => Ok x
      | [] => Raise IndexError
      end
  | PStr s =>
      match s with
      | String c s' => Ok (PStr (String c (take_continuation s')))
      | EmptyString => Raise IndexError
      end
  | PDict _ => Raise (KeyError "0")
  | PNone | PBool _ | PInt _ => Raise TypeError
  end.

(** [v.get(k, default)]; only dictionaries have the method *)
Definition get_default (v : pyval) (k : string) (default : pyval) : result pyval :=
  match v with
  | PDict d =>
      match lookup k d with
      | Some x => Ok x
      | None => Ok default
      end
  | _ => Raise AttributeError
  end.

(** [v.get(k)] *)
Definition get (v : pyval) (k : string) : result pyval :=
  get_default v k PNone.

(** the items [for x in v] yields *)
Definition iter (v : pyval) : result (list pyval) :=
  match v with
  | PList l => Ok l
  | PDict d => Ok (map (fun kv => PStr (fst kv)) d)
  | PStr s =>
      Ok ((fix chars (s : string) (cur : option string) : list pyval :=
             match s with
             | EmptyString =>
                 match cur with Some c => [PStr c] | None => [] end
             | String c s' =>
                 if is_continuation c
                 then chars s' (match cur with
                                | Some p => Some (p ++ String c EmptyString)
                                | None => Some (String c EmptyString)
                                end)
                 else match cur with
                      | Some p => PStr p :: chars s' (Some (String c EmptyString))
                      | None => chars s' (Some (String c EmptyString))
                      end
             end) s None)
  | PNone | PBool _ | PInt _ => Raise TypeError
  end.

(** [str(n)] for an integer *)
Definition str_int (n : Z) : string :=
  NilZero.string_of_int (Z.to_int n).

Section Repr.
(** [repr] of a string (quoting and escaping) is Python's own; the model
    is parametric in it. *)
Variable repr_str : string -> string.

Definition join (sep : string) (l : list string) : string :=
  match l with
  | [] => ""
  | x :: l' => fold_left (fun acc y => acc ++ sep ++ y) l' x
  end.

(** [repr(v)] *)
Fixpoint py_repr (v : pyval) : string :=
  match v with
  | PNone => "None"
  | PBool b => if b then "True" else "False"
  | PInt n => str_int n
  | PStr s => repr_str s
  | PList l => "[" ++ join ", " (map py_repr l) ++ "]"
  | PDict d =>
      "{" ++ join ", " (map (fun kv => repr_str (fst kv) ++ ": " ++ py_repr (snd kv)) d)
          ++ "}"
  end.

(** [str(v)], what an f-string substitutes for [{v}] *)
Definition py_str (v : pyval) : string :=
  match v with
  | PStr s => s
  | _ => py_repr v
  end.
End Repr.

End PyVal.
Import PyVal.

(* ===================================================================== *)
(** ** Effects: provider, log and [cherrypy.response] *)
(* ===================================================================== *)

(** What the client observes of a [requests.Response]: the status code, the
    outcome of [response.json()] ([None] when the body is not JSON and the call
    raises) and the outcome of [response.content.decode("utf-8")] ([None] when
    the body is not valid UTF-8). *)
Record Response : Type := mkResponse {
  status_code : Z;
  json_body : option pyval;
  content_utf8 : option string
}.

Definition response_json (r : Response) : result pyval :=
  match json_body r with
  | Some v => Ok v
  | None => Raise JSONDecodeError
  end.

Definition content_decode (r : Response) : result string :=
  match content_utf8 r with
  | Some s => Ok s
  | None => Raise UnicodeDecodeError
  end.

Inductive level : Type := INFO | ERROR.

(** What the program takes from its surroundings: Python's [repr] on strings,
    and the upstream provider, that is some state and its reaction to
    [requests.post(url, json=payload)], which answers or raises. *)
Class Runtime : Type := mkRuntime {
  repr_str : string -> string;
  Srv : Type;
  post : string -> pyval -> Srv -> result Response * Srv
}.

Section Model.

Context {R : Runtime}.

(** Everything a request can change: the provider, the requests sent to it
    (oldest first), the log, and the status and headers of
    [cherrypy.response] (status [None] until the handler sets it). *)
Record World : Type := mkWorld {
  srv : Srv;
  calls : list (string * pyval);
  log : list (level * string);
  status : option Z;
  headers : list (string * string)
}.

Definition initial_world (s : Srv) : World :=
  mkWorld s [] [] None [].

(** State and exceptions; the state survives a raise. *)
Definition M (A : Type) : Type := World -> result A * World.

Definition ret {A} (a : A) : M A := fun w => (Ok a, w).

Definition bind {A B} (m : M A) (k : A -> M B) : M B :=
  fun w =>
    match m w with
    | (Ok a, w') => k a w'
    | (Raise e, w') => (Raise e, w')
    end.

Definition raise {A} (e : exn) : M A := fun w => (Raise e, w).

Definition lift {A} (r : result A) : M A := fun w => (r, w).

(** [try: m  except <handler e is Some>: ...]; other exceptions pass. *)
Definition try_except {A} (m : M A) (handler : exn -> option (M A)) : M A :=
  fun w =>
    match m w with
    | (Ok a, w') => (Ok a, w')
    | (Raise e, w') =>
        match handler e with
        | Some h => h w'
        | None => (Raise e, w')
        end
    end.

Notation "x <- m ;; k" := (bind m (fun x => k))
  (at level 61, m at next level, right associativity).
Notation "m ;;; k" := (bind m (fun _ => k))
  (at level 61, right associativity).

(** [requests.post(url, json=payload)] *)
Definition requests_post (url : string) (payload : pyval) : M Response :=
  fun w =>
    let (r, s') := post url payload (srv w) in
    (r, mkWorld s' (calls w ++ [(url, payload)]) (log w) (status w) (headers w)).

Definition logging (l : level) (msg : string) : M unit :=
  fun w => (Ok tt, mkWorld (srv w) (calls w) (log w ++ [(l, msg)]) (status w) (headers w)).

(** [cherrypy.response.status = s] *)
Definition set_status (s : Z) : M unit :=
  fun w => (Ok tt, mkWorld (srv w) (calls w) (log w) (Some s) (headers w)).

(** [cherrypy.response.headers[k] = v] *)
Definition set_header (k v : string) : M unit :=
  fun w =>
    (Ok tt, mkWorld (srv w) (calls w) (log w) (status w)
              (if existsb (fun kv => String.eqb (fst kv) k) (headers w)
               then map (fun kv => if String.eqb (fst kv) k then (k, v) else kv) (headers w)
               else headers w ++ [(k, v)])).

Definition str := py_str repr_str.

(** [DNSAPIException.__str__] *)
Definition exn_str (error_code error_data : pyval) : string :=
  str error_code ++ " - " ++ str error_data.

(* =================================================================== *)
(** ** class HostingDEDNSAPIClient *)
(* =================================================================== *)

Record HostingDEDNSAPIClient : Type := mkClient {
  base_url : string;
  zone : pyval;
  token : pyval;
  default_ttl : pyval
}.

(** [HostingDEDNSAPIClient.__init__] *)
Definition client_init (config : pyval) : result HostingDEDNSAPIClient :=
  match getitem config "zone" with
  | Raise e => Raise e
  | Ok z =>
      match getitem config "token" with
      | Raise e => Raise e
      | Ok t =>
          match getitem config "default_ttl" with
          | Raise e => Raise e
          | Ok d => Ok (mkClient "https://secure.hosting.de/api/dns/v1/json" z t d)
          end
      end
  end.

(** [api_request] *)
Definition api_request (self : HostingDEDNSAPIClient) (endpoint : string)
           (payload : pyval) : M pyval :=
  response <- requests_post (base_url self ++ "/" ++ endpoint) payload ;;
  if negb (status_code response =? 200) then
    error_text <-
      try_except (lift (response_json response))
        (fun e => if is_ValueError e
                  then Some (s <- lift (content_decode response) ;; ret (PStr s))
                  else None) ;;
    raise (DNSAPIException (PInt (status_code response)) error_text)
  else
    json_data <- lift (response_json response) ;;
    has_errors <-
      (present <- lift (py_in (PStr "errors") json_data) ;;
       if present then
         errors <- lift (getitem json_data "errors") ;;
         n <- lift (py_len errors) ;;
         ret (negb (n =? 0))
       else ret false) ;;
    if has_errors then
      errors <- lift (getitem json_data "errors") ;;
      error_data <- lift (getitem0 errors) ;;
      value <- lift (get error_data "value") ;;
      error_text <-
        (if truthy value then
           v <- lift (getitem error_data "value") ;;
           t <- lift (getitem error_data "text") ;;
           ret (PStr (str v ++ " - " ++ str t))
         else lift (getitem error_data "text")) ;;
      code <- lift (getitem error_data "code") ;;
      raise (DNSAPIException code error_text)
    else
      json_again <- lift (response_json response) ;;
      lift (getitem json_again "response").

Definition find_payload (self : HostingDEDNSAPIClient)
           (record_name record_type : string) : pyval :=
  PDict [("authToken", token self);
         ("filter",
           PDict [("subFilterConnective", PStr "AND");
                  ("subFilter",
                    PList [PDict [("field", PStr "RecordName");
                                  ("value", PStr record_name)];
                           PDict [("field", PStr "RecordType");
                                  ("value", PStr record_type)]])])].

(** [get_resource_record_id] *)
Definition get_resource_record_id (self : HostingDEDNSAPIClient)
           (record_name record_type : string) : M pyval :=
  result <- api_request self "recordsFind" (find_payload self record_name record_type) ;;
  data <- lift (getitem result "data") ;;
  n <- lift (py_len data) ;;
  if n =? 0 then
    raise (DNSAPIException (PInt 404) (PStr "No matching record found."))
  else if 1 <? n then
    raise (DNSAPIException (PInt 400)
             (PStr "More than one matching record found, cannot continue."))
  else
    first <- lift (getitem0 data) ;;
    id <- lift (get first "id") ;;
    if negb (truthy id) then
      raise (DNSAPIException (PInt 404) (PStr "Could not find ID for record in response."))
    else
      lift (getitem first "id").

(** [record_ttl if record_ttl and record_ttl >= 60 else self.default_ttl] *)
Definition effective_ttl (self : HostingDEDNSAPIClient) (record_ttl : option Z) : pyval :=
  match record_ttl with
  | Some t => if truthy_int record_ttl && (60 <=? t) then PInt t else default_ttl self
  | None => default_ttl self
  end.

Definition update_payload (self : HostingDEDNSAPIClient) (record_id : pyval)
           (record_name record_type record_data : string) (record_ttl : option Z) : pyval :=
  PDict [("authToken", token self);
         ("zoneName", zone self);
         ("recordsToModify",
           PList [PDict [("id", record_id);
                         ("name", PStr record_name);
                         ("type", PStr record_type);
                         ("content", PStr record_data);
                         ("comments",
                           PStr "DynDNS Record - automatically managed, do not change!");
                         ("ttl", effective_ttl self record_ttl)]])].

(** [list(filter(lambda entry: entry.get("id") == record_id, entries))] *)
Fixpoint filter_by_id (record_id : pyval) (entries : list pyval) : result (list pyval) :=
  match entries with
  | [] => Ok []
  | entry :: rest =>
      match get entry "id" with
      | Raise e => Raise e
      | Ok i =>
          match filter_by_id record_id rest with
          | Raise e => Raise e
          | Ok kept => Ok (if py_eq i record_id then entry :: kept else kept)
          end
      end
  end.

(** [update_resource_record] *)
Definition update_resource_record (self : HostingDEDNSAPIClient)
           (record_name record_type record_data : string) (record_ttl : option Z) : M pyval :=
  record_id <- get_resource_record_id self record_name record_type ;;
  result <- api_request self "recordsUpdate"
              (update_payload self record_id record_name record_type record_data record_ttl) ;;
  records <- lift (get_default result "records" (PList [])) ;;
  entries <- lift (iter records) ;;
  filtered <- lift (filter_by_id record_id entries) ;;
  match filtered with
  | [] =>
      raise (DNSAPIException (PInt 500)
               (PStr "Update succeeded, but failed to find updated record in success response. This should not happen."))
  | [one] => ret one
  | _ :: _ :: _ =>
      raise (DNSAPIException (PInt 500)
               (PStr "Update succeeded, but found more than one result in success response. This should not happen."))
  end.

(* =================================================================== *)
(** ** class Root *)
(* =================================================================== *)

Record Root : Type := mkRoot {
  allowed_domains : pyval;
  dns_client : HostingDEDNSAPIClient
}.

(** [Root.__init__] *)
Definition Root_init (dns_client : HostingDEDNSAPIClient) (allowed_domains : pyval)
  : result Root :=
  if truthy allowed_domains && negb (is_list allowed_domains) then
    Raise (ValueError "allowed_domains has to be a list or False to allow all domains.")
  else
    Ok (mkRoot allowed_domains dns_client).

(** the line feed of ["\n".join] *)
Definition nl : string := String (ascii_of_nat 10) EmptyString.

Definition success_line (record_type : string) (name content : pyval) : string :=
  "Successfully updated " ++ record_type ++ " record for " ++ str name
    ++ " to " ++ str content.

Definition failure_line (record_type : string) (error_code error_data : pyval) : string :=
  "Failed to update " ++ record_type ++ " record: " ++ exn_str error_code error_data.

(** The closure [update_wrapper] of [dyndns]; the list [results] it appends
    to is passed in and handed back. *)
Definition update_wrapper (self : Root) (domain : string) (ttl : option Z)
           (results : list string) (record_type record_data : string) : M (list string) :=
  try_except
    (result <- update_resource_record (dns_client self) domain record_type record_data ttl ;;
     name <- lift (getitem result "name") ;;
     content <- lift (getitem result "content") ;;
     new_ttl <- lift (getitem result "ttl") ;;
     changed <- lift (getitem result "lastChangeDate") ;;
     logging INFO
       ("Successfully updated " ++ record_type ++ " record for " ++ str name ++ ":"
          ++ " " ++ str content ++ ", TTL " ++ str new_ttl ++ " at " ++ str changed) ;;;
     name' <- lift (getitem result "name") ;;
     content' <- lift (getitem result "content") ;;
     ret (results ++ [success_line record_type name' content'])%list)
    (fun e =>
       match e with
       | DNSAPIException error_code error_data =>
           Some
             (logging ERROR
                ("Failed to update " ++ record_type ++ " record for " ++ domain
                   ++ " with address " ++ record_data ++ " and TTL "
                   ++ (if truthy_int ttl
                       then match ttl with Some t => str_int t | None => "None" end
                       else "<default>")
                   ++ ": " ++ exn_str error_code error_data) ;;;
              set_status 400 ;;;
              ret (results ++ [failure_line record_type error_code error_data])%list)
       | _ => None
       end).

(** [not domain] for a [str] parameter that defaults to [None] *)
Definition param (p : option string) : string :=
  match p with Some s => s | None => "" end.

(** [Root.dyndns] *)
Definition dyndns (self : Root) (domain ipv4 ipv6 : option string) (ttl : option Z)
  : M string :=
  if negb (truthy_str domain) then
    set_status 400 ;;;
    ret "DynDNS target domain missing."
  else
    forbidden <-
      (if truthy (allowed_domains self) then
         member <- lift (py_in (PStr (param domain)) (allowed_domains self)) ;;
         ret (negb member)
       else ret false) ;;
    if forbidden then
      set_status 403 ;;;
      ret "Requested DynDNS domain ist not on the allowlist."
    else
      if negb (truthy_str ipv4) && negb (truthy_str ipv6) then
        logging ERROR
          ("Update request for " ++ param domain
             ++ " received, but neither a v4 nor a v6 address given.") ;;;
        set_status 400 ;;;
        ret "Neither a v4 nor a v6 address given."
      else
        results <-
          (if truthy_str ipv4
           then update_wrapper self (param domain) ttl [] "A" (param ipv4)
           else ret []) ;;
        results <-
          (if truthy_str ipv6
           then update_wrapper self (param domain) ttl results "AAAA" (param ipv6)
           else ret results) ;;
        set_header "Content-Type" "text/plain" ;;;
        ret (join nl results).

(** The status line the framework sends for a handler run: the status the
    handler set, 200 when it set none, 500 when it let an exception out. *)
Definition http_status (run : result string * World) : Z :=
  match run with
  | (Raise _, _) => 500
  | (Ok _, w) => match status w with Some s => s | None => 200 end
  end.

End Model.

(* ===================================================================== *)
(** ** main *)
(* ===================================================================== *)

(** sequencing of computations that only answer or raise *)
Definition and_then {A B : Type} (r : result A) (k : A -> result B) : result B :=
  match r with
  | Ok a => k a
  | Raise e => Raise e
  end.

(** What [main] assigns on [cherrypy.server]: either [socket_file], or
    [socket_host] and [socket_port]. *)
Inductive binding : Type :=
| SocketFile (socket_file : pyval)
| SocketHostPort (socket_host socket_port : pyval).

(** [main], from the configuration [toml.load] returned up to the call
    [cherrypy.quickstart(root)]: the binding it sets and the handler it
    mounts, or the exception that ends the process. *)
Definition main (config : pyval) : result (binding * Root) :=
  and_then (py_in (PStr "bind_socket") config) (fun has_socket =>
  and_then
    (if has_socket then
       and_then (getitem config "main") (fun section =>
       and_then (getitem section "bind_socket") (fun file =>
       Ok (SocketFile file)))
     else
       and_then (getitem config "main") (fun section =>
       and_then (getitem section "bind_host") (fun host =>
       and_then (getitem config "main") (fun section' =>
       and_then (getitem section' "bind_port") (fun port =>
       Ok (SocketHostPort host port))))))
    (fun bound =>
  and_then (getitem config "main") (fun section =>
  and_then (getitem section "allowed_domains") (fun allowed_domains =>
  and_then (getitem config "hosting_de_dns_api") (fun api_config =>
  and_then (client_init api_config) (fun hosting_de_dns_api_client =>
  and_then (Root_init hosting_de_dns_api_client allowed_domains) (fun root =>
  Ok (bound, root)))))))).

(* ===================================================================== *)
(** ** A scripted provider *)
(* ===================================================================== *)

(** A provider that answers the requests it receives with a prepared list of
    responses, one after the other, and refuses the connection once the list
    is used up.  Strings are printed by [repr] between single quotes, which is
    what Python does for a string without apostrophe, backslash or control
    character; the runs below print no other string through [repr]. *)
Module Scripted.

Definition repr_plain (s : string) : string := "'" ++ s ++ "'".

Definition answer (url : string) (payload : pyval) (script : list Response)
  : result Response * list Response :=
  match script with
  | r :: script' => (Ok r, script')
  | [] => (Raise RequestException, [])
  end.

Definition runtime : Runtime := mkRuntime repr_plain (list Response) answer.

(** a 200 response carrying a JSON document *)
Definition ok_json (v : pyval) : Response := mkResponse 200 (Some v) (Some "").

(** the envelope of a successful call *)
Definition envelope (payload : pyval) : pyval :=
  PDict [("errors", PList []); ("response", payload); ("status", PStr "success")].

(** the envelope of a failed call, answered with status 200 all the same *)
Definition failed (code : Z) (text : string) : pyval :=
  PDict [("errors", PList [PDict [("code", PInt code); ("text", PStr text)]]);
         ("status", PStr "error")].

Definition record (id name type content : string) (ttl : Z) : pyval :=
  PDict [("id", PStr id); ("name", PStr name); ("type", PStr type);
         ("content", PStr content); ("ttl", PInt ttl);
         ("lastChangeDate", PStr "2024-01-01T00:00:00Z")].

Definition found (records : list pyval) : Response :=
  ok_json (envelope (PDict [("data", PList records)])).

Definition updated (records : list pyval) : Response :=
  ok_json (envelope (PDict [("records", PList records)])).

Definition client : HostingDEDNSAPIClient :=
  mkClient "https://secure.hosting.de/api/dns/v1/json"
    (PStr "example.com") (PStr "secret") (PInt 300).

Definition open_root : Root := mkRoot (PBool false) client.

(** the world at the start of a request, with [script] still to be played *)
Definition world (script : list Response) : @World runtime :=
  @initial_world runtime script.

(** what is left of the script *)
Definition remaining (w : @World runtime) : list Response := srv w.

Definition rec_a : pyval := record "id-a" "home.example.com" "A" "203.0.113.5" 300.
Definition rec_aaaa : pyval := record "id-6" "home.example.com" "AAAA" "2001:db8::5" 300.

(** a handler restricted to one domain *)
Definition listed_root : Root := mkRoot (PList [PStr "home.example.com"]) client.

(** the script of an A update that succeeds and an AAAA update that the
    provider answers with the embedded error 500 "internal error" *)
Definition a_ok_aaaa_fails : list Response :=
  [found [rec_a]; updated [rec_a];
   found [rec_aaaa]; ok_json (failed 500 "internal error")].

(** a 200 answer whose body is not JSON *)
Definition not_json : Response := mkResponse 200 None (Some "<html></html>").

(** an error entry without [text] *)
Definition no_text : pyval :=
  PDict [("errors", PList [PDict [("code", PInt 500)]])].

(** an updated record without [lastChangeDate] *)
Definition bare_record : pyval :=
  PDict [("id", PStr "id-a"); ("name", PStr "home.example.com");
         ("content", PStr "203.0.113.5"); ("ttl", PInt 300)].

Definition api_table : pyval :=
  PDict [("zone", PStr "example.com"); ("token", PStr "secret"); ("default_ttl", PInt 300)].

(** a configuration bound to host and port *)
Definition config_host : pyval :=
  PDict [("main", PDict [("bind_host", PStr "127.0.0.1"); ("bind_port", PInt 8080);
                         ("allowed_domains", PList [PStr "home.example.com"])]);
         ("hosting_de_dns_api", api_table)].

(** a configuration whose [main] table names a socket file *)
Definition main_with_socket : list (string * pyval) :=
  [("bind_socket", PStr "/run/dyndns.sock"); ("allowed_domains", PBool false)].

Definition config_socket : list (string * pyval) :=
  [("main", PDict main_with_socket); ("hosting_de_dns_api", api_table)].



(** a 500 answer whose body is neither JSON nor UTF-8 *)
Definition undecodable : Response := mkResponse 500 None None.

(** an embedded error 500 "internal error" that names the offending value *)
Definition failed_with_value : pyval :=
  PDict [("errors", PList [PDict [("code", PInt 500); ("text", PStr "internal error");
                                  ("value", PStr "ttl")]]);
         ("status", PStr "error")].

(** the A search answered with a page that is not JSON, the AAAA record in
    good order *)
Definition a_unreadable_aaaa_fine : list Response :=
  [not_json; found [rec_aaaa]; updated [rec_aaaa]].

(** the A update answered with a record without [lastChangeDate], the AAAA
    update with the embedded error *)
Definition a_bare_aaaa_fails : list Response :=
  [found [rec_a]; updated [bare_record];
   found [rec_aaaa]; ok_json (failed 500 "internal error")].

(** as [a_ok_aaaa_fails], the error entry carrying a [value] *)
Definition a_ok_aaaa_fails_with_value : list Response :=
  [found [rec_a]; updated [rec_a];
   found [rec_aaaa]; ok_json failed_with_value].

End Scripted.

(* ===================================================================== *)
(** ** Vocabulary of the specification *)
(* ===================================================================== *)

Section Vocabulary.

Context {R : Runtime}.

(** the world once one more request went out and the provider moved on *)
Definition sent (w : World) (s' : Srv) (url : string) (payload : pyval) : World :=
  mkWorld s' (calls w ++ [(url, payload)]) (log w) (status w) (headers w).

(** the message of an embedded error entry whose [text] field is [text] *)
Definition embedded_message (entry : list (string * pyval)) (text : pyval) : pyval :=
  match lookup "value" entry with
  | Some v => if truthy v then PStr (str v ++ " - " ++ str text) else text
  | None => text
  end.

(** a 200 document without embedded errors: no [errors] member, or an
    empty one *)
Definition no_embedded_errors (doc : list (string * pyval)) : Prop :=
  lookup "errors" doc = None \/
  exists e, lookup "errors" doc = Some e /\ py_len e = Ok 0.

(** the identifier of an entry of the update response *)
Definition entry_id (entry : pyval) : pyval :=
  match entry with
  | PDict fields => match lookup "id" fields with Some i => i | None => PNone end
  | _ => PNone
  end.

Definition is_record (entry : pyval) : Prop :=
  exists fields, entry = PDict fields.

(** the entries of the update response carrying the identifier updated *)
Definition selected (record_id : pyval) (records : list pyval) : list pyval :=
  filter (fun entry => py_eq (entry_id entry) record_id) records.

(** the [ttl] of the one record of a [recordsUpdate] payload *)
Definition sent_ttl (payload : pyval) : option pyval :=
  match payload with
  | PDict p =>
      match lookup "recordsToModify" p with
      | Some (PList [PDict rec]) => lookup "ttl" rec
      | _ => None
      end
  | _ => None
  end.

(** A computation that leaves the world alone. *)
Definition stateless {A} (m : M A) : Prop := forall w, snd (m w) = w.

(** What a client call leaves untouched, and what it adds. *)
Definition response_kept (w w' : World) : Prop :=
  log w' = log w /\ status w' = status w /\ headers w' = headers w.

Definition calls_grow (w w' : World) : Prop :=
  exists more, calls w' = (calls w ++ more)%list.

(** The allow-list check lets the domain through: the list is off or
    empty, or the domain is on it. *)
Definition allowlist_passes (self : Root) (domain : string) : Prop :=
  truthy (allowed_domains self) = false \/
  py_in (PStr domain) (allowed_domains self) = Ok true.

(** What one address family ends in, as far as the handler is prepared for
    it: the updated record with the four members the handler reads, or an API
    error. *)
Inductive outcome : Type :=
| Updated (name content ttl changed : pyval)
| Failed (error_code error_data : pyval).

Definition outcome_of (r : result pyval) : option outcome :=
  match r with
  | Ok (PDict fields) =>
      match lookup "name" fields, lookup "content" fields,
            lookup "ttl" fields, lookup "lastChangeDate" fields with
      | Some n, Some c, Some t, Some d => Some (Updated n c t d)
      | _, _, _, _ => None
      end
  | Raise (DNSAPIException error_code error_data) => Some (Failed error_code error_data)
  | _ => None
  end.

(** the line of the response body for an outcome *)
Definition outcome_line (record_type : string) (o : outcome) : string :=
  match o with
  | Updated name content _ _ => success_line record_type name content
  | Failed error_code error_data => failure_line record_type error_code error_data
  end.

(** the log entry for an outcome *)
Definition outcome_log (domain record_data : string) (ttl : option Z)
           (record_type : string) (o : outcome) : level * string :=
  match o with
  | Updated name content new_ttl changed =>
      (INFO,
        "Successfully updated " ++ record_type ++ " record for " ++ str name ++ ":"
          ++ " " ++ str content ++ ", TTL " ++ str new_ttl ++ " at " ++ str changed)
  | Failed error_code error_data =>
      (ERROR,
        "Failed to update " ++ record_type ++ " record for " ++ domain
          ++ " with address " ++ record_data ++ " and TTL "
          ++ (if truthy_int ttl
              then match ttl with Some t => str_int t | None => "None" end
              else "<default>")
          ++ ": " ++ exn_str error_code error_data)
  end.

(** the world once the handler dealt with an outcome: one more log entry, and
    status 400 after a failure *)
Definition after_outcome (domain record_data : string) (ttl : option Z)
           (record_type : string) (o : outcome) (w : World) : World :=
  mkWorld (srv w) (calls w)
    (log w ++ [outcome_log domain record_data ttl record_type o])
    (match o with Failed _ _ => Some 400 | Updated _ _ _ _ => status w end)
    (headers w).

(** the one record of a [recordsUpdate] payload *)
Definition sent_record (payload : pyval) : option (list (string * pyval)) :=
  match payload with
  | PDict p =>
      match lookup "recordsToModify" p with
      | Some (PList [PDict rec]) => Some rec
      | _ => None
      end
  | _ => None
  end.

(** a member of a request payload *)
Definition payload_member (payload : pyval) (k : string) : option pyval :=
  match payload with
  | PDict p => lookup k p
  | _ => None
  end.

(** the two conditions of a [RecordName] / [RecordType] search *)
Definition search_conditions (payload : pyval) : option (list pyval) :=
  match payload_member payload "filter" with
  | Some (PDict f) =>
      match lookup "subFilterConnective" f, lookup "subFilter" f with
      | Some (PStr "AND"), Some (PList conditions) => Some conditions
      | _, _ => None
      end
  | _ => None
  end.

(** [isinstance(e, DNSAPIException)] *)
Definition is_DNSAPIException (e : exn) : bool :=
  match e with
  | DNSAPIException _ _ => true
  | _ => false
  end.

(** the members of an updated record the handler reads *)
Definition handler_reads : list string :=
  ["name"; "content"; "ttl"; "lastChangeDate"].

(** A 200 answer with an embedded error: the document's [errors] list starts
    with an object carrying [code] and [text], and no truthy [value]. *)
Definition embedded_error (r : Response) (code text : pyval) : Prop :=
  status_code r = 200 /\
  exists doc entry rest,
    json_body r = Some (PDict doc) /\
    lookup "errors" doc = Some (PList (PDict entry :: rest)) /\
    lookup "code" entry = Some code /\
    lookup "text" entry = Some text /\
    match lookup "value" entry with
    | Some v => truthy v = false
    | None => True
    end.

(** The provider answers one of the two calls of an update with [r]: the
    search, or, the search having given an identifier, the update call. *)
Definition update_answered_with (self : HostingDEDNSAPIClient)
           (record_name record_type record_data : string) (record_ttl : option Z)
           (w : World) (r : Response) : Prop :=
  (exists s',
      post (base_url self ++ "/" ++ "recordsFind")
        (find_payload self record_name record_type) (srv w) = (Ok r, s')) \/
  (exists id w1 s',
      get_resource_record_id self record_name record_type w = (Ok id, w1) /\
      post (base_url self ++ "/" ++ "recordsUpdate")
        (update_payload self id record_name record_type record_data record_ttl) (srv w1)
      = (Ok r, s')).

End Vocabulary.

(* ===================================================================== *)
(** ** Properties *)
(* ===================================================================== *)

Ltac unfold_m :=
  unfold bind, ret, raise, lift, try_except, requests_post, logging,
    set_status, set_header in *.

Section Client.

Context {R : Runtime}.

Lemma eqb_200 (n : Z) : (n =? 200) = true <-> n = 200.
Proof. apply Z.eqb_eq. Qed.

Lemma stateless_ret {A} (a : A) : stateless (ret a).
Proof. intros w. reflexivity. Qed.

Lemma stateless_raise {A} (e : exn) : stateless (@raise R A e).
Proof. intros w. reflexivity. Qed.

Lemma stateless_lift {A} (r : result A) : stateless (lift r).
Proof. intros w. reflexivity. Qed.

Lemma stateless_bind {A B} (m : M A) (k : A -> M B) :
  stateless m -> (forall a, stateless (k a)) -> stateless (bind m k).
Proof.
  intros Hm Hk w. unfold bind. specialize (Hm w).
  destruct (m w) as [[a|e] w1]; cbn in Hm; subst w1.
  - apply Hk.
  - reflexivity.
Qed.

Lemma stateless_try {A} (m : M A) (handler : exn -> option (M A)) :
  stateless m -> (forall e h, handler e = Some h -> stateless h) ->
  stateless (try_except m handler).
Proof.
  intros Hm Hh w. unfold try_except. specialize (Hm w).
  destruct (m w) as [[a|e] w1]; cbn in Hm; subst w1.
  - reflexivity.
  - destruct (handler e) as [h|] eqn:E.
    + exact (Hh e h E w).
    + reflexivity.
Qed.

Ltac stateless :=
  repeat first
    [ apply stateless_ret | apply stateless_raise | apply stateless_lift
    | apply stateless_bind; [|intros ?]
    | apply stateless_try;
      [|intros ? ? ?;
        repeat match goal with
               | H : (if ?b then _ else _) = Some _ |- _ => destruct b
               | H : Some _ = Some _ |- _ => injection H as <-
               | H : None = Some _ |- _ => discriminate H
               end]
    | match goal with
      | |- stateless (if ?b then _ else _) => destruct b
      | |- stateless (match ?x with _ => _ end) => destruct x
      end ].

(** After the request went out, [api_request] only inspects the response. *)
Lemma api_request_world (self : HostingDEDNSAPIClient) (endpoint : string) (payload : pyval)
    (w : World) (r : result Response) (s' : Srv) :
  post (base_url self ++ "/" ++ endpoint) payload (srv w) = (r, s') ->
  snd (api_request self endpoint payload w)
  = sent w s' (base_url self ++ "/" ++ endpoint) payload.
Proof.
  intros Hpost. unfold api_request.
  unfold bind at 1. unfold requests_post. rewrite Hpost.
  destruct r as [resp|e]; [|reflexivity].
  cbv beta. unfold sent.
  match goal with
  | |- snd (?m ?w0) = _ => enough (H : stateless m) by exact (H w0)
  end.
  stateless.
Qed.

Lemma bind_ok {A B} (m : M A) (k : A -> M B) (w w1 : World) (a : A) :
  m w = (Ok a, w1) -> bind m k w = k a w1.
Proof. intros H. unfold bind. rewrite H. reflexivity. Qed.

Lemma bind_raise {A B} (m : M A) (k : A -> M B) (w w1 : World) (e : exn) :
  m w = (Raise e, w1) -> bind m k w = (Raise e, w1).
Proof. intros H. unfold bind. rewrite H. reflexivity. Qed.

Lemma bind_stateless_snd {A B} (m : M A) (k : A -> M B) (w : World) :
  (forall a, stateless (k a)) -> snd (bind m k w) = snd (m w).
Proof.
  intros Hk. unfold bind. destruct (m w) as [[a|e] w1]; cbn.
  - apply Hk.
  - reflexivity.
Qed.

Lemma api_request_frame (self : HostingDEDNSAPIClient) (endpoint : string) (payload : pyval)
    (w : World) :
  let w' := snd (api_request self endpoint payload w) in
  response_kept w w' /\
  calls w' = (calls w ++ [((base_url self ++ "/" ++ endpoint)%string, payload)])%list.
Proof.
  cbv zeta.
  destruct (post (base_url self ++ "/" ++ endpoint) payload (srv w)) as [r s'] eqn:Hpost.
  rewrite (api_request_world _ _ _ _ _ _ Hpost).
  unfold response_kept, sent. cbn. auto.
Qed.

Lemma get_resource_record_id_world (self : HostingDEDNSAPIClient)
    (record_name record_type : string) (w : World) :
  snd (get_resource_record_id self record_name record_type w)
  = snd (api_request self "recordsFind" (find_payload self record_name record_type) w).
Proof.
  unfold get_resource_record_id. apply bind_stateless_snd. intros result. stateless.
Qed.

Lemma update_tail_world (self : HostingDEDNSAPIClient)
    (record_name record_type record_data : string) (record_ttl : option Z)
    (w w1 : World) (id : pyval) :
  get_resource_record_id self record_name record_type w = (Ok id, w1) ->
  snd (update_resource_record self record_name record_type record_data record_ttl w)
  = snd (api_request self "recordsUpdate"
           (update_payload self id record_name record_type record_data record_ttl) w1).
Proof.
  intros Hid. unfold update_resource_record. rewrite (bind_ok _ _ _ _ _ Hid).
  apply bind_stateless_snd. intros result. stateless.
Qed.

Lemma response_kept_refl (w : World) : response_kept w w.
Proof. unfold response_kept. auto. Qed.

Lemma response_kept_trans (w1 w2 w3 : World) :
  response_kept w1 w2 -> response_kept w2 w3 -> response_kept w1 w3.
Proof. unfold response_kept. intros (?&?&?) (?&?&?). repeat split; congruence. Qed.

Lemma calls_grow_trans (w1 w2 w3 : World) :
  calls_grow w1 w2 -> calls_grow w2 w3 -> calls_grow w1 w3.
Proof.
  intros [l1 H1] [l2 H2]. exists (l1 ++ l2)%list. rewrite H2, H1, app_assoc. reflexivity.
Qed.

Lemma update_resource_record_frame (self : HostingDEDNSAPIClient)
    (record_name record_type record_data : string) (record_ttl : option Z) (w : World) :
  let w' := snd (update_resource_record self record_name record_type record_data record_ttl w) in
  response_kept w w' /\ calls_grow w w'.
Proof.
  cbv zeta.
  pose proof (get_resource_record_id_world self record_name record_type w) as Hw1.
  pose proof (api_request_frame self "recordsFind"
                (find_payload self record_name record_type) w) as [Hk1 Hc1].
  cbv zeta in Hk1, Hc1. rewrite <- Hw1 in Hk1, Hc1.
  destruct (get_resource_record_id self record_name record_type w) as [[id|e] w1] eqn:Hid;
    cbn [snd] in *.
  - rewrite (update_tail_world _ _ _ _ _ _ _ _ Hid).
    pose proof (api_request_frame self "recordsUpdate"
                  (update_payload self id record_name record_type record_data record_ttl) w1)
      as [Hk2 Hc2].
    cbv zeta in Hk2, Hc2. split.
    + eapply response_kept_trans; eassumption.
    + eapply calls_grow_trans; [eexists; exact Hc1 | eexists; exact Hc2].
  - unfold update_resource_record. rewrite (bind_raise _ _ _ _ _ Hid). cbn [snd].
    split; [assumption | eexists; exact Hc1].
Qed.

Lemma filter_by_id_selected (record_id : pyval) (records : list pyval) :
  Forall is_record records ->
  filter_by_id record_id records = Ok (selected record_id records).
Proof.
  induction 1 as [|entry rest [fields ->] _ IH]; [reflexivity|].
  cbn [filter_by_id selected filter]. fold (selected record_id rest).
  rewrite IH. unfold get, get_default, entry_id.
  destruct (lookup "id" fields); reflexivity.
Qed.

(** C1 (amended). [api_request] decides an answered call by the HTTP status
    first and by the embedded [errors] list second: a status other than 200
    raises the API error with that status and the body, as JSON when it
    parses and as text when it does not parse but decodes as UTF-8; status
    200 with a document whose [errors] list starts with an object carrying
    [code] and [text] raises the API error with the entry's own code and the
    message made of [value] and [text]; and the call returns a payload exactly
    when the status is 200, the document is an object without embedded errors
    and the payload is its [response] member. *)
Theorem api_request_two_tier
    (self : HostingDEDNSAPIClient) (endpoint : string) (payload : pyval)
    (w : World) (r : Response) (s' : Srv) :
  post (base_url self ++ "/" ++ endpoint) payload (srv w) = (Ok r, s') ->
  let run := api_request self endpoint payload w in
  snd run = sent w s' (base_url self ++ "/" ++ endpoint) payload /\
  (status_code r <> 200 ->
     (forall detail, json_body r = Some detail ->
        fst run = Raise (DNSAPIException (PInt (status_code r)) detail)) /\
     (forall text, json_body r = None -> content_utf8 r = Some text ->
        fst run = Raise (DNSAPIException (PInt (status_code r)) (PStr text)))) /\
  (status_code r = 200 ->
     forall doc entry rest code text,
       json_body r = Some (PDict doc) ->
       lookup "errors" doc = Some (PList (PDict entry :: rest)) ->
       lookup "code" entry = Some code ->
       lookup "text" entry = Some text ->
       fst run = Raise (DNSAPIException code (embedded_message entry text))) /\
  (forall v,
     fst run = Ok v <->
     status_code r = 200 /\
     exists doc, json_body r = Some (PDict doc) /\ no_embedded_errors doc /\
                 lookup "response" doc = Some v).
Proof.
  intros Hpost run. subst run.
  split; [apply (api_request_world _ _ _ _ _ _ Hpost)|].
  unfold api_request. unfold_m. rewrite Hpost. cbn [fst snd].
  destruct (status_code r =? 200) eqn:Hs.
  - apply eqb_200 in Hs. cbn [negb].
    unfold response_json.
    destruct (json_body r) as [j|] eqn:Hj.
    + split; [intros Hne; contradiction|].
      split.
      { intros _ doc entry rest code text Hdoc Herr Hcode Htext.
        injection Hdoc as ->. cbn. rewrite Herr. cbn.
        unfold get, get_default, embedded_message. rewrite Hcode, Htext.
        destruct (lookup "value" entry) as [v|] eqn:Hv; cbn.
        - destruct (truthy v); cbn; reflexivity.
        - reflexivity. }
      intros v. split.
      { intros Hrun. split; [assumption|].
        destruct j as [| | |s|l|doc]; cbn in Hrun;
          try discriminate;
          try (destruct (substringb "errors" s); cbn in Hrun; discriminate);
          try (destruct (existsb _ l); cbn in Hrun; discriminate).
        exists doc. split; [reflexivity|].
        unfold no_embedded_errors.
        destruct (lookup "errors" doc) as [e|] eqn:He; cbn in Hrun.
        - destruct (py_len e) as [n|x] eqn:Hn; cbn in Hrun; [|discriminate].
          destruct (n =? 0) eqn:Hn0; cbn in Hrun.
          + apply Z.eqb_eq in Hn0. subst n. split.
            * right. exists e. split; [reflexivity|assumption].
            * destruct (lookup "response" doc); [congruence|discriminate].
          + exfalso.
            destruct (getitem0 e) as [ed|]; cbn in Hrun; [|discriminate].
            destruct (get ed "value") as [va|]; cbn in Hrun; [|discriminate].
            destruct (truthy va); cbn in Hrun.
            * destruct (getitem ed "value"); cbn in Hrun; [|discriminate].
              destruct (getitem ed "text"); cbn in Hrun; [|discriminate].
              destruct (getitem ed "code"); cbn in Hrun; discriminate.
            * destruct (getitem ed "text"); cbn in Hrun; [|discriminate].
              destruct (getitem ed "code"); cbn in Hrun; discriminate.
        - split; [left; reflexivity|].
          destruct (lookup "response" doc); [congruence|discriminate]. }
      { intros [_ (doc & Hdoc & Hno & Hresp)]. injection Hdoc as ->. cbn.
        destruct Hno as [Hnone | (e & He & Hlen)].
        - rewrite Hnone. cbn. rewrite Hresp. reflexivity.
        - rewrite He. cbn. rewrite Hlen. cbn. rewrite Hresp. reflexivity. }
    + cbn.
      split; [intros Hne; contradiction|].
      split; [intros _ doc entry rest code text Hdoc; discriminate|].
      intros v. split; [discriminate|].
      intros [_ (doc & Hdoc & _)]. discriminate.
  - assert (Hne : status_code r <> 200).
    { intros E. apply eqb_200 in E. congruence. }
    cbn [negb]. unfold response_json, content_decode.
    split.
    { intros _. split.
      - intros detail ->. reflexivity.
      - intros text -> ->. reflexivity. }
    split; [intros E; contradiction|].
    intros v. split.
    + destruct (json_body r); cbn; [discriminate|].
      destruct (content_utf8 r); discriminate.
    + intros [E _]. contradiction.
Qed.

(** C2 (amended). Given the payload of the record search with [matches] as its
    [data]: no match raises the API error 404 "No matching record found.";
    two or more raise 400 "More than one matching record found, cannot
    continue."; a single match without an [id] member, or with an empty one,
    raises 404 "Could not find ID for record in response."; a single match
    with a non-empty [id] returns that [id]. *)
Theorem get_resource_record_id_cases
    (self : HostingDEDNSAPIClient) (record_name record_type : string)
    (w w1 : World) (result : pyval) (matches : list pyval) :
  api_request self "recordsFind" (find_payload self record_name record_type) w
  = (Ok result, w1) ->
  getitem result "data" = Ok (PList matches) ->
  let run := get_resource_record_id self record_name record_type w in
  (matches = [] ->
     run = (Raise (DNSAPIException (PInt 404) (PStr "No matching record found.")), w1)) /\
  (forall m1 m2 rest, matches = m1 :: m2 :: rest ->
     run = (Raise (DNSAPIException (PInt 400)
                     (PStr "More than one matching record found, cannot continue.")), w1)) /\
  (forall fields, matches = [PDict fields] -> lookup "id" fields = None ->
     run = (Raise (DNSAPIException (PInt 404)
                     (PStr "Could not find ID for record in response.")), w1)) /\
  (forall fields id, matches = [PDict fields] -> lookup "id" fields = Some id ->
     run = (if truthy id then Ok id
            else Raise (DNSAPIException (PInt 404)
                          (PStr "Could not find ID for record in response.")), w1)).
Proof.
  intros Hreq Hdata run. subst run.
  unfold get_resource_record_id. rewrite (bind_ok _ _ _ _ _ Hreq).
  unfold_m. rewrite Hdata. cbn [py_len].
  repeat split.
  - intros ->. reflexivity.
  - intros m1 m2 rest ->. cbn [List.length].
    replace (Z.of_nat (S (S (List.length rest))) =? 0) with false by (symmetry; apply Z.eqb_neq; lia).
    replace (1 <? Z.of_nat (S (S (List.length rest)))) with true by (symmetry; apply Z.ltb_lt; lia).
    reflexivity.
  - intros fields -> Hid. cbn. unfold get, get_default. rewrite Hid. reflexivity.
  - intros fields id -> Hid. cbn. unfold get, get_default. rewrite Hid.
    destruct (truthy id); reflexivity.
Qed.

(** C3 (amended). Given the payload of the update call with [records] as its
    collection of modified records, [update_resource_record] keeps exactly the
    records whose [id] equals the identifier just updated: none raises the
    API error 500 "Update succeeded, but failed to find updated record in
    success response. This should not happen."; two or more raise 500 "Update
    succeeded, but found more than one result in success response. This should
    not happen."; exactly one is returned. *)
Theorem update_resource_record_selects
    (self : HostingDEDNSAPIClient) (record_name record_type record_data : string)
    (record_ttl : option Z) (w w1 w2 : World) (id result : pyval) (records : list pyval) :
  get_resource_record_id self record_name record_type w = (Ok id, w1) ->
  api_request self "recordsUpdate"
    (update_payload self id record_name record_type record_data record_ttl) w1
  = (Ok result, w2) ->
  get_default result "records" (PList []) = Ok (PList records) ->
  Forall is_record records ->
  let run := update_resource_record self record_name record_type record_data record_ttl w in
  (selected id records = [] ->
     run = (Raise (DNSAPIException (PInt 500)
                     (PStr "Update succeeded, but failed to find updated record in success response. This should not happen.")), w2)) /\
  (forall e1 e2 rest, selected id records = e1 :: e2 :: rest ->
     run = (Raise (DNSAPIException (PInt 500)
                     (PStr "Update succeeded, but found more than one result in success response. This should not happen.")), w2)) /\
  (forall one, selected id records = [one] -> run = (Ok one, w2)).
Proof.
  intros Hid Hreq Hrecords Hall run. subst run.
  unfold update_resource_record.
  rewrite (bind_ok _ _ _ _ _ Hid), (bind_ok _ _ _ _ _ Hreq).
  unfold_m. rewrite Hrecords. cbn [iter]. rewrite (filter_by_id_selected _ _ Hall).
  repeat split.
  - intros ->. reflexivity.
  - intros e1 e2 rest ->. reflexivity.
  - intros one ->. reflexivity.
Qed.

(** C4. Whenever [update_resource_record] gets as far as the update call, the
    request it sends carries as [ttl] the caller's ttl when one is given and
    is at least 60, and the configured default otherwise; 59 gives the default
    and 60 gives 60. *)
Theorem update_resource_record_sends_effective_ttl
    (self : HostingDEDNSAPIClient) (record_name record_type record_data : string)
    (record_ttl : option Z) (w w1 : World) (id : pyval) :
  get_resource_record_id self record_name record_type w = (Ok id, w1) ->
  exists payload,
    calls (snd (update_resource_record self record_name record_type record_data record_ttl w))
    = (calls w1 ++ [((base_url self ++ "/" ++ "recordsUpdate")%string, payload)])%list /\
    (forall t, record_ttl = Some t -> 60 <= t -> sent_ttl payload = Some (PInt t)) /\
    (forall t, record_ttl = Some t -> t < 60 -> sent_ttl payload = Some (default_ttl self)) /\
    (record_ttl = None -> sent_ttl payload = Some (default_ttl self)) /\
    (record_ttl = Some 59 -> sent_ttl payload = Some (default_ttl self)) /\
    (record_ttl = Some 60 -> sent_ttl payload = Some (PInt 60)).
Proof.
  intros Hid.
  exists (update_payload self id record_name record_type record_data record_ttl).
  split.
  - rewrite (update_tail_world _ _ _ _ _ _ _ _ Hid).
    apply api_request_frame.
  - cbn. unfold effective_ttl, truthy_int. repeat split.
    + intros t -> Ht.
      replace (60 <=? t) with true by (symmetry; apply Z.leb_le; lia).
      replace (t =? 0) with false by (symmetry; apply Z.eqb_neq; lia).
      reflexivity.
    + intros t -> Ht.
      replace (60 <=? t) with false by (symmetry; apply Z.leb_gt; lia).
      rewrite andb_false_r. reflexivity.
    + intros ->. reflexivity.
    + intros ->. reflexivity.
    + intros ->. reflexivity.
Qed.

End Client.


Section Handler.

Context {R : Runtime}.

Lemma py_eq_str (v : pyval) (s : string) : py_eq v (PStr s) = true <-> v = PStr s.
Proof.
  destruct v; cbn; split; try discriminate; try (intros H; discriminate H).
  - intros H. apply String.eqb_eq in H. congruence.
  - intros H. injection H as ->. apply String.eqb_refl.
Qed.

Lemma member_str (s : string) (l : list pyval) :
  existsb (fun y => py_eq y (PStr s)) l = true <-> In (PStr s) l.
Proof.
  rewrite existsb_exists. split.
  - intros (y & Hin & Hy). apply py_eq_str in Hy. subst y. exact Hin.
  - intros Hin. exists (PStr s). split; [exact Hin | apply py_eq_str; reflexivity].
Qed.

(** [Root.__init__] leaves only a falsy value or a list as allow-list. *)
Lemma Root_init_shape (client : HostingDEDNSAPIClient) (ad : pyval) (root : Root) :
  Root_init client ad = Ok root ->
  root = mkRoot ad client /\ (truthy ad = false \/ exists l, ad = PList l).
Proof.
  unfold Root_init. destruct (truthy ad) eqn:Ht; cbn.
  - destruct ad; cbn; try discriminate. intros H. injection H as <-.
    split; [reflexivity | right; eexists; reflexivity].
  - intros H. injection H as <-. auto.
Qed.

(** What [update_wrapper] does with an outcome. *)
Lemma update_wrapper_outcome (self : Root) (domain : string) (ttl : option Z)
    (results : list string) (record_type record_data : string)
    (w w1 : World) (r : result pyval) (o : outcome) :
  update_resource_record (dns_client self) domain record_type record_data ttl w = (r, w1) ->
  outcome_of r = Some o ->
  update_wrapper self domain ttl results record_type record_data w
  = (Ok (results ++ [outcome_line record_type o])%list,
     after_outcome domain record_data ttl record_type o w1).
Proof.
  intros Hrun Ho. unfold update_wrapper, try_except, bind at 1. rewrite Hrun.
  destruct r as [rec|e]; cbn in Ho.
  - destruct rec as [| | | | |fields]; try discriminate.
    destruct (lookup "name" fields) as [n|] eqn:Hn; [|discriminate].
    destruct (lookup "content" fields) as [c|] eqn:Hc; [|discriminate].
    destruct (lookup "ttl" fields) as [t|] eqn:Ht; [|discriminate].
    destruct (lookup "lastChangeDate" fields) as [d|] eqn:Hd; [|discriminate].
    injection Ho as <-.
    unfold_m. cbn [getitem]. rewrite Hn, Hc, Ht, Hd. reflexivity.
  - destruct e; try discriminate. injection Ho as <-. reflexivity.
Qed.

(** A wrapper that returns has met an outcome. *)
Lemma update_wrapper_returns (self : Root) (domain : string) (ttl : option Z)
    (results res : list string) (record_type record_data : string) (w w' : World) :
  update_wrapper self domain ttl results record_type record_data w = (Ok res, w') ->
  exists r w1 o,
    update_resource_record (dns_client self) domain record_type record_data ttl w = (r, w1) /\
    outcome_of r = Some o /\
    res = (results ++ [outcome_line record_type o])%list /\
    w' = after_outcome domain record_data ttl record_type o w1.
Proof.
  intros Hw.
  destruct (update_resource_record (dns_client self) domain record_type record_data ttl w)
    as [r w1] eqn:Hrun.
  destruct (outcome_of r) as [o|] eqn:Ho.
  - rewrite (update_wrapper_outcome _ _ _ _ _ _ _ _ _ _ Hrun Ho) in Hw.
    injection Hw as <- <-. exists r, w1, o. auto.
  - exfalso. revert Hw.
    unfold update_wrapper, try_except, bind at 1. rewrite Hrun.
    destruct r as [rec|e]; cbn in Ho.
    + unfold_m. destruct rec as [| | | | |fields]; cbn; try discriminate.
      destruct (lookup "name" fields); cbn; [|discriminate].
      destruct (lookup "content" fields); cbn; [|discriminate].
      destruct (lookup "ttl" fields); cbn; [|discriminate].
      destruct (lookup "lastChangeDate" fields); cbn; discriminate.
    + destruct e; discriminate.
Qed.

(** The only status a wrapper ever sets is 400. *)
Lemma update_wrapper_status (self : Root) (domain : string) (ttl : option Z)
    (results : list string) (record_type record_data : string) (w : World) :
  let w' := snd (update_wrapper self domain ttl results record_type record_data w) in
  status w' = status w \/ status w' = Some 400.
Proof.
  cbv zeta.
  pose proof (update_resource_record_frame (dns_client self) domain record_type
                record_data ttl w) as [(_ & Hst & _) _].
  cbv zeta in Hst.
  destruct (update_wrapper self domain ttl results record_type record_data w)
    as [res w'] eqn:E.
  cbn [snd]. revert E. unfold update_wrapper, try_except, bind at 1.
  destruct (update_resource_record (dns_client self) domain record_type record_data ttl w)
    as [[rec|e] w1]; cbn [snd] in Hst.
  - unfold_m.
    repeat match goal with
           | |- context [match getitem ?a ?b with _ => _ end] =>
               destruct (getitem a b) as [?|[]]
           end; cbn; intros E; injection E as <- <-; cbn; auto.
  - destruct e; cbn; intros E; injection E as <- <-; cbn; auto.
Qed.

(** Past the three checks the handler runs the supplied families in turn. *)
Lemma dyndns_updates (self : Root) (domain ipv4 ipv6 : option string) (ttl : option Z)
    (w : World) :
  truthy_str domain = true ->
  allowlist_passes self (param domain) ->
  truthy_str ipv4 = true \/ truthy_str ipv6 = true ->
  dyndns self domain ipv4 ipv6 ttl w
  = bind (if truthy_str ipv4
          then update_wrapper self (param domain) ttl [] "A" (param ipv4)
          else ret [])
      (fun results =>
         bind (if truthy_str ipv6
               then update_wrapper self (param domain) ttl results "AAAA" (param ipv6)
               else ret results)
           (fun results =>
              bind (set_header "Content-Type" "text/plain")
                (fun _ => ret (join nl results)))) w.
Proof.
  intros Hdom Hallow Haddr. unfold dyndns. rewrite Hdom. cbn [negb].
  assert (Hsome : negb (truthy_str ipv4) && negb (truthy_str ipv6) = false).
  { destruct Haddr as [-> | ->]; cbn; [reflexivity | apply andb_false_r]. }
  rewrite Hsome.
  destruct Hallow as [Hoff | Hon].
  - rewrite Hoff. reflexivity.
  - destruct (truthy (allowed_domains self)); [|reflexivity].
    unfold bind at 1. unfold bind at 1. unfold lift. rewrite Hon. reflexivity.
Qed.

(** Without an address the handler stops at the third check. *)
Lemma dyndns_no_address (self : Root) (domain ipv4 ipv6 : option string) (ttl : option Z)
    (w : World) :
  truthy_str domain = true ->
  allowlist_passes self (param domain) ->
  truthy_str ipv4 = false -> truthy_str ipv6 = false ->
  dyndns self domain ipv4 ipv6 ttl w
  = (Ok "Neither a v4 nor a v6 address given.",
     mkWorld (srv w) (calls w)
       (log w ++ [(ERROR, "Update request for " ++ param domain
                            ++ " received, but neither a v4 nor a v6 address given.")])
       (Some 400) (headers w)).
Proof.
  intros Hdom Hallow H4 H6. unfold dyndns. rewrite Hdom, H4, H6. cbn [negb andb].
  destruct Hallow as [Hoff | Hon].
  - rewrite Hoff. reflexivity.
  - destruct (truthy (allowed_domains self)); [|reflexivity].
    unfold bind at 1. unfold bind at 1. unfold lift. rewrite Hon. reflexivity.
Qed.

(** A domain that passes the allow-list check is never answered with 403. *)
Lemma dyndns_not_forbidden (self : Root) (domain ipv4 ipv6 : option string)
    (ttl : option Z) (w : World) :
  truthy_str domain = true ->
  allowlist_passes self (param domain) ->
  status w = None ->
  http_status (dyndns self domain ipv4 ipv6 ttl w) <> 403.
Proof.
  intros Hdom Hallow Hst.
  destruct (truthy_str ipv4) eqn:H4; [|destruct (truthy_str ipv6) eqn:H6].
  3: { rewrite (dyndns_no_address _ _ _ _ _ _ Hdom Hallow H4 H6). cbn. discriminate. }
  all: rewrite dyndns_updates by (try assumption; rewrite ?H4, ?H6; auto);
    rewrite ?H4, ?H6.
  - unfold bind at 1.
    pose proof (update_wrapper_status self (param domain) ttl [] "A" (param ipv4) w) as HA.
    cbv zeta in HA.
    destruct (update_wrapper self (param domain) ttl [] "A" (param ipv4) w)
      as [[res|e] w1]; cbn [snd] in HA; [|cbn; discriminate].
    unfold bind at 1.
    assert (HB : forall w2 : World,
               (status w2 = status w1 \/ status w2 = Some 400) -> status w2 <> Some 403).
    { intros w2 [E | E]; rewrite E; [destruct HA as [E' | E']; rewrite E', ?Hst|];
        discriminate. }
    destruct (truthy_str ipv6).
    + pose proof (update_wrapper_status self (param domain) ttl res "AAAA" (param ipv6) w1)
        as HW.
      cbv zeta in HW.
      destruct (update_wrapper self (param domain) ttl res "AAAA" (param ipv6) w1)
        as [[res2|e] w2]; cbn [snd] in HW; [|cbn; discriminate].
      specialize (HB w2 HW). cbn. destruct (status w2) as [z|]; [congruence | discriminate].
    + cbn. specialize (HB w1 (or_introl eq_refl)).
      destruct (status w1) as [z|]; [congruence | discriminate].
  - unfold bind at 1. cbn. unfold bind at 1.
    pose proof (update_wrapper_status self (param domain) ttl [] "AAAA" (param ipv6) w)
      as HW.
    cbv zeta in HW.
    destruct (update_wrapper self (param domain) ttl [] "AAAA" (param ipv6) w)
      as [[res2|e] w2]; cbn [snd] in HW; [|cbn; discriminate].
    cbn. destruct HW as [E | E]; rewrite E, ?Hst; discriminate.
Qed.

(** With both addresses and an outcome for each family, the body is the A
    line, a line feed and the AAAA line; the world is the one the second
    update left, with the content type set. *)
Lemma dyndns_both_outcomes (self : Root) (domain ipv4 ipv6 : option string)
    (ttl : option Z) (w w1 w2 : World) (ra rb : result pyval) (oa ob : outcome) :
  truthy_str domain = true ->
  allowlist_passes self (param domain) ->
  truthy_str ipv4 = true -> truthy_str ipv6 = true ->
  update_resource_record (dns_client self) (param domain) "A" (param ipv4) ttl w
  = (ra, w1) ->
  outcome_of ra = Some oa ->
  update_resource_record (dns_client self) (param domain) "AAAA" (param ipv6) ttl
    (after_outcome (param domain) (param ipv4) ttl "A" oa w1)
  = (rb, w2) ->
  outcome_of rb = Some ob ->
  dyndns self domain ipv4 ipv6 ttl w
  = (Ok (outcome_line "A" oa ++ nl ++ outcome_line "AAAA" ob),
     snd (set_header "Content-Type" "text/plain"
            (after_outcome (param domain) (param ipv6) ttl "AAAA" ob w2))).
Proof.
  intros Hdom Hallow H4 H6 HA HoA HB HoB.
  rewrite dyndns_updates by auto. rewrite H4, H6.
  rewrite (bind_ok _ _ _ _ _ (update_wrapper_outcome _ _ _ [] _ _ _ _ _ _ HA HoA)).
  rewrite (bind_ok _ _ _ _ _ (update_wrapper_outcome _ _ _ _ _ _ _ _ _ _ HB HoB)).
  reflexivity.
Qed.

Lemma dyndns_missing_domain (self : Root) (domain ipv4 ipv6 : option string)
    (ttl : option Z) (w : World) :
  truthy_str domain = false ->
  dyndns self domain ipv4 ipv6 ttl w
  = (Ok "DynDNS target domain missing.",
     mkWorld (srv w) (calls w) (log w) (Some 400) (headers w)).
Proof. intros Hdom. unfold dyndns. rewrite Hdom. reflexivity. Qed.

Lemma dyndns_forbidden (self : Root) (domain ipv4 ipv6 : option string)
    (ttl : option Z) (w : World) (l : list pyval) :
  truthy_str domain = true ->
  allowed_domains self = PList l -> l <> [] -> ~ In (PStr (param domain)) l ->
  dyndns self domain ipv4 ipv6 ttl w
  = (Ok "Requested DynDNS domain ist not on the allowlist.",
     mkWorld (srv w) (calls w) (log w) (Some 403) (headers w)).
Proof.
  intros Hdom Hl Hne Hnot. unfold dyndns. rewrite Hdom, Hl. cbn [negb].
  assert (Hmem : existsb (fun y => py_eq y (PStr (param domain))) l = false).
  { destruct (existsb _ l) eqn:E; [|reflexivity]. apply member_str in E. contradiction. }
  destruct l as [|x l']; [contradiction|].
  unfold bind at 1. unfold bind at 1. unfold lift. cbn [truthy py_in].
  rewrite Hmem. reflexivity.
Qed.

(** C5. For a handler built by [Root.__init__] and a request with a domain,
    the answer has status 403 exactly when the allow-list is a non-empty list
    that does not contain the domain; with the allow-list off or empty no
    domain is answered with 403. *)
Theorem forbidden_iff_not_on_allowlist
    (client : HostingDEDNSAPIClient) (ad : pyval) (root : Root)
    (domain ipv4 ipv6 : option string) (ttl : option Z) (w : World) :
  Root_init client ad = Ok root ->
  truthy_str domain = true ->
  status w = None ->
  (http_status (dyndns root domain ipv4 ipv6 ttl w) = 403 <->
   exists l, ad = PList l /\ l <> [] /\ ~ In (PStr (param domain)) l) /\
  (truthy ad = false -> http_status (dyndns root domain ipv4 ipv6 ttl w) <> 403).
Proof.
  intros Hinit Hdom Hst.
  destruct (Root_init_shape _ _ _ Hinit) as [-> Hshape].
  assert (Hoff : truthy ad = false ->
                 http_status (dyndns (mkRoot ad client) domain ipv4 ipv6 ttl w) <> 403).
  { intros Hf. apply dyndns_not_forbidden; [assumption | left; exact Hf | assumption]. }
  split; [|exact Hoff].
  destruct (truthy ad) eqn:Ht.
  - destruct Hshape as [Hf | [l ->]]; [discriminate|].
    destruct (existsb (fun y => py_eq y (PStr (param domain))) l) eqn:Hmem.
    + split.
      * intros H403. exfalso. revert H403. apply dyndns_not_forbidden; [assumption| |assumption].
        right. cbn. rewrite Hmem. reflexivity.
      * intros (l' & Hl' & _ & Hnot). injection Hl' as <-.
        apply member_str in Hmem. contradiction.
    + assert (Hnot : ~ In (PStr (param domain)) l).
      { intros Hin. apply member_str in Hin. congruence. }
      assert (Hne : l <> []) by (intros ->; discriminate Ht).
      split.
      * intros _. exists l. auto.
      * intros _.
        rewrite (dyndns_forbidden (mkRoot (PList l) client) _ _ _ _ _ l Hdom eq_refl Hne Hnot).
        reflexivity.
  - split.
    + intros H403. exfalso. exact (Hoff eq_refl H403).
    + intros (l & -> & Hne & _). destruct l; [contradiction | discriminate].
Qed.

(** C6. A request with a domain that passes the allow-list check but brings
    neither address is answered with status 400 and the body "Neither a v4 nor
    a v6 address given."; the provider is not contacted. *)
Theorem no_address_is_rejected
    (self : Root) (domain ipv4 ipv6 : option string) (ttl : option Z) (w : World) :
  truthy_str domain = true ->
  allowlist_passes self (param domain) ->
  truthy_str ipv4 = false -> truthy_str ipv6 = false ->
  let run := dyndns self domain ipv4 ipv6 ttl w in
  fst run = Ok "Neither a v4 nor a v6 address given." /\
  status (snd run) = Some 400 /\
  http_status run = 400 /\
  calls (snd run) = calls w /\
  srv (snd run) = srv w.
Proof.
  intros Hdom Hallow H4 H6. cbv zeta.
  rewrite (dyndns_no_address _ _ _ _ _ _ Hdom Hallow H4 H6). cbn. auto.
Qed.

(** An embedded error in the answer makes [api_request] raise it. *)
Lemma api_request_embedded_error (self : HostingDEDNSAPIClient) (endpoint : string)
    (payload : pyval) (w : World) (r : Response) (s' : Srv) (code text : pyval) :
  post (base_url self ++ "/" ++ endpoint) payload (srv w) = (Ok r, s') ->
  embedded_error r code text ->
  api_request self endpoint payload w
  = (Raise (DNSAPIException code text),
     sent w s' (base_url self ++ "/" ++ endpoint) payload).
Proof.
  intros Hpost (Hs & doc & entry & rest & Hdoc & Herr & Hcode & Htext & Hvalue).
  unfold api_request. unfold_m. rewrite Hpost.
  apply Z.eqb_eq in Hs. rewrite Hs. cbn [negb]. unfold response_json. rewrite Hdoc.
  cbn. rewrite Herr. cbn. unfold get, get_default.
  destruct (lookup "value" entry) as [v|]; cbn.
  - rewrite Hvalue. cbn. rewrite Htext. cbn. rewrite Hcode. reflexivity.
  - rewrite Htext. cbn. rewrite Hcode. reflexivity.
Qed.

(** An update one of whose calls is answered with an embedded error raises
    that error. *)
Lemma update_embedded_error (self : HostingDEDNSAPIClient)
    (record_name record_type record_data : string) (record_ttl : option Z)
    (w : World) (r : Response) (code text : pyval) :
  update_answered_with self record_name record_type record_data record_ttl w r ->
  embedded_error r code text ->
  exists w2,
    update_resource_record self record_name record_type record_data record_ttl w
    = (Raise (DNSAPIException code text), w2).
Proof.
  intros [(s' & Hpost) | (id & w1 & s' & Hid & Hpost)] Herr.
  - eexists. unfold update_resource_record. apply bind_raise.
    unfold get_resource_record_id. apply bind_raise.
    exact (api_request_embedded_error _ _ _ _ _ _ _ _ Hpost Herr).
  - eexists. unfold update_resource_record. rewrite (bind_ok _ _ _ _ _ Hid).
    apply bind_raise.
    exact (api_request_embedded_error _ _ _ _ _ _ _ _ Hpost Herr).
Qed.

(** C7 (amended). With both addresses supplied: when the A update returns a
    record with the members the handler reads, and the provider answers a
    call of the AAAA update with status 200 and an error entry of code 500
    and text "internal error" without truthy [value], the body is the A
    success line, a line feed and "Failed to update AAAA record: 500 -
    internal error", with status 400, and the requests of the A update stay
    in the provider's history.  Whenever each update ends in such a record or
    in an API error, each family contributes the line of its own outcome and
    the status is 400 exactly when one of them failed.  An update that ends
    in any other exception ends the request with that exception. *)
Theorem families_are_independent
    (self : Root) (domain ipv4 ipv6 : option string) (ttl : option Z) (w : World) :
  truthy_str domain = true ->
  allowlist_passes self (param domain) ->
  truthy_str ipv4 = true -> truthy_str ipv6 = true ->
  status w = None ->
  let run := dyndns self domain ipv4 ipv6 ttl w in
  (forall ra w1 name content new_ttl changed r,
     update_resource_record (dns_client self) (param domain) "A" (param ipv4) ttl w
     = (ra, w1) ->
     outcome_of ra = Some (Updated name content new_ttl changed) ->
     update_answered_with (dns_client self) (param domain) "AAAA" (param ipv6) ttl
       (after_outcome (param domain) (param ipv4) ttl "A"
          (Updated name content new_ttl changed) w1) r ->
     embedded_error r (PInt 500) (PStr "internal error") ->
     fst run = Ok (success_line "A" name content ++ nl
                     ++ "Failed to update AAAA record: 500 - internal error") /\
     http_status run = 400 /\
     calls_grow w w1 /\ calls_grow w1 (snd run)) /\
  (forall ra w1 oa rb w2 ob,
     update_resource_record (dns_client self) (param domain) "A" (param ipv4) ttl w
     = (ra, w1) ->
     outcome_of ra = Some oa ->
     update_resource_record (dns_client self) (param domain) "AAAA" (param ipv6) ttl
       (after_outcome (param domain) (param ipv4) ttl "A" oa w1)
     = (rb, w2) ->
     outcome_of rb = Some ob ->
     fst run = Ok (outcome_line "A" oa ++ nl ++ outcome_line "AAAA" ob) /\
     (calls_grow w w1 /\ calls_grow w1 (snd run) /\
      srv (snd run) = srv w2 /\ calls (snd run) = calls w2) /\
     (http_status run = 400 <->
      (exists c d, oa = Failed c d) \/ (exists c d, ob = Failed c d)) /\
     (http_status run = 200 <->
      (exists n c t d, oa = Updated n c t d) /\ (exists n c t d, ob = Updated n c t d))) /\
  (forall e w1,
     update_resource_record (dns_client self) (param domain) "A" (param ipv4) ttl w
     = (Raise e, w1) ->
     is_DNSAPIException e = false ->
     run = (Raise e, w1)) /\
  (forall ra w1 oa e w2,
     update_resource_record (dns_client self) (param domain) "A" (param ipv4) ttl w
     = (ra, w1) ->
     outcome_of ra = Some oa ->
     update_resource_record (dns_client self) (param domain) "AAAA" (param ipv6) ttl
       (after_outcome (param domain) (param ipv4) ttl "A" oa w1)
     = (Raise e, w2) ->
     is_DNSAPIException e = false ->
     run = (Raise e, w2)).
Proof.
  intros Hdom Hallow H4 H6 Hst run. subst run.
  assert (Hhandled : forall ra w1 oa rb w2 ob,
     update_resource_record (dns_client self) (param domain) "A" (param ipv4) ttl w
     = (ra, w1) ->
     outcome_of ra = Some oa ->
     update_resource_record (dns_client self) (param domain) "AAAA" (param ipv6) ttl
       (after_outcome (param domain) (param ipv4) ttl "A" oa w1)
     = (rb, w2) ->
     outcome_of rb = Some ob ->
     fst (dyndns self domain ipv4 ipv6 ttl w)
     = Ok (outcome_line "A" oa ++ nl ++ outcome_line "AAAA" ob) /\
     (calls_grow w w1 /\ calls_grow w1 (snd (dyndns self domain ipv4 ipv6 ttl w)) /\
      srv (snd (dyndns self domain ipv4 ipv6 ttl w)) = srv w2 /\
      calls (snd (dyndns self domain ipv4 ipv6 ttl w)) = calls w2) /\
     (http_status (dyndns self domain ipv4 ipv6 ttl w) = 400 <->
      (exists c d, oa = Failed c d) \/ (exists c d, ob = Failed c d)) /\
     (http_status (dyndns self domain ipv4 ipv6 ttl w) = 200 <->
      (exists n c t d, oa = Updated n c t d) /\ (exists n c t d, ob = Updated n c t d))).
  { intros ra w1 oa rb w2 ob HA HoA HB HoB.
    rewrite (dyndns_both_outcomes _ _ _ _ _ _ _ _ _ _ _ _ Hdom Hallow H4 H6 HA HoA HB HoB).
    pose proof (update_resource_record_frame (dns_client self) (param domain) "A"
                  (param ipv4) ttl w) as [(_ & HstA & _) HgA].
    pose proof (update_resource_record_frame (dns_client self) (param domain) "AAAA"
                  (param ipv6) ttl (after_outcome (param domain) (param ipv4) ttl "A" oa w1))
      as [(_ & HstB & _) HgB].
    cbv zeta in HstA, HgA, HstB, HgB. rewrite HA in HstA, HgA. rewrite HB in HstB, HgB.
    cbn [snd fst] in *. rewrite Hst in HstA.
    split; [reflexivity|]. split.
    - repeat split; try reflexivity; assumption.
    - unfold set_header. cbn [snd status http_status].
      unfold after_outcome in *. cbn [status] in *.
      destruct ob as [n c t d | c d], oa as [n' c' t' d' | c' d'];
        rewrite ?HstB, ?HstA;
        (split; split;
         [ try discriminate; intros _; eauto 10
         | try reflexivity; intros [(? & ? & ?) | (? & ? & ?)]; discriminate
         | try discriminate; intros _; split; eauto 10
         | try reflexivity;
           intros [(? & ? & ? & ? & ?) (? & ? & ? & ? & ?)]; discriminate ]). }
  split; [|split; [exact Hhandled|split]].
  - intros ra w1 name content new_ttl changed r HA HoA Hanswer Herr.
    destruct (update_embedded_error _ _ _ _ _ _ _ _ _ Hanswer Herr) as (w2 & HB).
    destruct (Hhandled ra w1 _ _ w2 (Failed (PInt 500) (PStr "internal error"))
                HA HoA HB eq_refl) as (Hbody & (Hg1 & Hg2 & _) & H400 & _).
    split; [exact Hbody|]. split; [|split; assumption].
    apply H400. right. eauto.
  - intros e w1 HA He. rewrite dyndns_updates by auto. rewrite H4.
    apply bind_raise. unfold update_wrapper, try_except, bind at 1. rewrite HA.
    destruct e; try reflexivity. discriminate He.
  - intros ra w1 oa e w2 HA HoA HB He. rewrite dyndns_updates by auto. rewrite H4, H6.
    rewrite (bind_ok _ _ _ _ _ (update_wrapper_outcome _ _ _ [] _ _ _ _ _ _ HA HoA)).
    apply bind_raise. unfold update_wrapper, try_except, bind at 1. rewrite HB.
    destruct e; try reflexivity. discriminate He.
Qed.

(** C8. A request that fails one of the three local checks (no domain, a
    domain that is not on an enabled allow-list, no address) is answered with
    a plain message and status 400 or 403, and the provider is not contacted:
    no request is sent and its state is unchanged. *)
Theorem validation_never_calls_provider
    (client : HostingDEDNSAPIClient) (ad : pyval) (root : Root)
    (domain ipv4 ipv6 : option string) (ttl : option Z) (w : World) :
  Root_init client ad = Ok root ->
  truthy_str domain = false \/
  (truthy_str domain = true /\
   exists l, ad = PList l /\ l <> [] /\ ~ In (PStr (param domain)) l) \/
  (truthy_str ipv4 = false /\ truthy_str ipv6 = false) ->
  let run := dyndns root domain ipv4 ipv6 ttl w in
  (exists msg,
      fst run = Ok msg /\
      In msg ["DynDNS target domain missing.";
              "Requested DynDNS domain ist not on the allowlist.";
              "Neither a v4 nor a v6 address given."]) /\
  (http_status run = 400 \/ http_status run = 403) /\
  calls (snd run) = calls w /\
  srv (snd run) = srv w.
Proof.
  intros Hinit Hcase run. subst run.
  destruct (Root_init_shape _ _ _ Hinit) as [-> Hshape].
  assert (Hmissing : truthy_str domain = false ->
    (exists msg,
        fst (dyndns (mkRoot ad client) domain ipv4 ipv6 ttl w) = Ok msg /\
        In msg ["DynDNS target domain missing.";
                "Requested DynDNS domain ist not on the allowlist.";
                "Neither a v4 nor a v6 address given."]) /\
    (http_status (dyndns (mkRoot ad client) domain ipv4 ipv6 ttl w) = 400 \/
     http_status (dyndns (mkRoot ad client) domain ipv4 ipv6 ttl w) = 403) /\
    calls (snd (dyndns (mkRoot ad client) domain ipv4 ipv6 ttl w)) = calls w /\
    srv (snd (dyndns (mkRoot ad client) domain ipv4 ipv6 ttl w)) = srv w).
  { intros Hdom. rewrite (dyndns_missing_domain _ _ _ _ _ _ Hdom). cbn.
    split; [eexists; split; [reflexivity | auto] | auto]. }
  assert (Hforbidden : forall l, truthy_str domain = true -> ad = PList l -> l <> [] ->
                                 ~ In (PStr (param domain)) l ->
    (exists msg,
        fst (dyndns (mkRoot ad client) domain ipv4 ipv6 ttl w) = Ok msg /\
        In msg ["DynDNS target domain missing.";
                "Requested DynDNS domain ist not on the allowlist.";
                "Neither a v4 nor a v6 address given."]) /\
    (http_status (dyndns (mkRoot ad client) domain ipv4 ipv6 ttl w) = 400 \/
     http_status (dyndns (mkRoot ad client) domain ipv4 ipv6 ttl w) = 403) /\
    calls (snd (dyndns (mkRoot ad client) domain ipv4 ipv6 ttl w)) = calls w /\
    srv (snd (dyndns (mkRoot ad client) domain ipv4 ipv6 ttl w)) = srv w).
  { intros l Hdom -> Hne Hnot.
    rewrite (dyndns_forbidden (mkRoot (PList l) client) _ _ _ _ _ l Hdom eq_refl Hne Hnot).
    cbn. split; [eexists; split; [reflexivity | auto] | auto]. }
  destruct Hcase as [Hdom | [[Hdom (l & Hl & Hne & Hnot)] | [H4 H6]]].
  - exact (Hmissing Hdom).
  - exact (Hforbidden l Hdom Hl Hne Hnot).
  - destruct (truthy_str domain) eqn:Hdom; [|exact (Hmissing eq_refl)].
    assert (Hdec : allowlist_passes (mkRoot ad client) (param domain) \/
                   exists l, ad = PList l /\ l <> [] /\ ~ In (PStr (param domain)) l).
    { unfold allowlist_passes. cbn [allowed_domains].
      destruct Hshape as [Hf | [l ->]]; [left; left; exact Hf|].
      destruct l as [|x l']; [left; left; reflexivity|].
      destruct (existsb (fun y => py_eq y (PStr (param domain))) (x :: l')) eqn:Hmem.
      - left. right. cbn [py_in]. rewrite Hmem. reflexivity.
      - right. exists (x :: l'). repeat split; [discriminate|].
        intros Hin. apply member_str in Hin. congruence. }
    destruct Hdec as [Hallow | (l & Hl & Hne & Hnot)].
    + rewrite (dyndns_no_address _ _ _ _ _ _ Hdom Hallow H4 H6). cbn.
      split; [eexists; split; [reflexivity | auto] | auto].
    + exact (Hforbidden l eq_refl Hl Hne Hnot).
Qed.

(** C9. [Root.__init__] raises exactly when the allow-list value is truthy and
    not a list; for a list, or for a falsy value such as [False], it builds
    the handler. *)
Theorem Root_init_raises_iff (client : HostingDEDNSAPIClient) (ad : pyval) :
  ((exists e, Root_init client ad = Raise e) <->
   truthy ad = true /\ is_list ad = false) /\
  (Root_init client ad = Ok (mkRoot ad client) <->
   is_list ad = true \/ truthy ad = false).
Proof.
  unfold Root_init.
  destruct (truthy ad) eqn:Ht, (is_list ad) eqn:Hl; cbn; split; split;
    try (intros [e He]; discriminate He);
    try (intros [? ?]; discriminate);
    try (intros [?|?]; discriminate);
    try discriminate; auto; intros; eauto.
Qed.

(** C10. With both addresses supplied, a body the handler returns is the line
    of the A outcome, one line feed, and the line of the AAAA outcome, in that
    order; and it does return that body whatever the two outcomes are. *)
Theorem body_lists_a_before_aaaa
    (self : Root) (domain ipv4 ipv6 : option string) (ttl : option Z) (w : World) :
  truthy_str domain = true ->
  allowlist_passes self (param domain) ->
  truthy_str ipv4 = true -> truthy_str ipv6 = true ->
  (forall body w',
     dyndns self domain ipv4 ipv6 ttl w = (Ok body, w') ->
     exists ra w1 oa rb w2 ob,
       update_resource_record (dns_client self) (param domain) "A" (param ipv4) ttl w
       = (ra, w1) /\
       outcome_of ra = Some oa /\
       update_resource_record (dns_client self) (param domain) "AAAA" (param ipv6) ttl
         (after_outcome (param domain) (param ipv4) ttl "A" oa w1)
       = (rb, w2) /\
       outcome_of rb = Some ob /\
       body = outcome_line "A" oa ++ String (ascii_of_nat 10) (outcome_line "AAAA" ob)) /\
  (forall ra w1 oa rb w2 ob,
     update_resource_record (dns_client self) (param domain) "A" (param ipv4) ttl w
     = (ra, w1) ->
     outcome_of ra = Some oa ->
     update_resource_record (dns_client self) (param domain) "AAAA" (param ipv6) ttl
       (after_outcome (param domain) (param ipv4) ttl "A" oa w1)
     = (rb, w2) ->
     outcome_of rb = Some ob ->
     fst (dyndns self domain ipv4 ipv6 ttl w)
     = Ok (outcome_line "A" oa ++ String (ascii_of_nat 10) (outcome_line "AAAA" ob))).
Proof.
  intros Hdom Hallow H4 H6. split.
  - intros body w'. rewrite dyndns_updates by auto. rewrite H4, H6.
    unfold bind at 1.
    destruct (update_wrapper self (param domain) ttl [] "A" (param ipv4) w)
      as [[res|e] wa] eqn:EA; [|discriminate].
    destruct (update_wrapper_returns _ _ _ _ _ _ _ _ _ EA)
      as (ra & w1 & oa & HA & HoA & -> & ->).
    unfold bind at 1.
    destruct (update_wrapper self (param domain) ttl _ "AAAA" (param ipv6) _)
      as [[res|e] wb] eqn:EB; [|discriminate].
    destruct (update_wrapper_returns _ _ _ _ _ _ _ _ _ EB)
      as (rb & w2 & ob & HB & HoB & -> & ->).
    cbn. intros E. injection E as <- _.
    exists ra, w1, oa, rb, w2, ob. repeat split; assumption.
  - intros ra w1 oa rb w2 ob HA HoA HB HoB.
    rewrite (dyndns_both_outcomes _ _ _ _ _ _ _ _ _ _ _ _ Hdom Hallow H4 H6 HA HoA HB HoB).
    reflexivity.
Qed.

End Handler.

(* ===================================================================== *)
(** ** Concrete runs against the scripted provider *)
(* ===================================================================== *)

Module Runs.

Import Scripted.

(** An embedded error in a 200 answer raises the provider's own code. *)
Lemma api_request_two_tier_witness :
  @post runtime (base_url client ++ "/" ++ "recordsUpdate") PNone
    (srv (world [ok_json (failed 500 "internal error")]))
  = (Ok (ok_json (failed 500 "internal error")), remaining (world [])) /\
  fst (api_request (R:=runtime) client "recordsUpdate" PNone
         (world [ok_json (failed 500 "internal error")]))
  = Raise (DNSAPIException (PInt 500) (PStr "internal error")).
Proof.
  split; [reflexivity|].
  destruct (api_request_two_tier (R:=runtime) client "recordsUpdate" PNone
              (world [ok_json (failed 500 "internal error")])
              (ok_json (failed 500 "internal error")) (remaining (world [])) eq_refl)
    as (_ & _ & H & _).
  exact (H eq_refl _ _ _ _ _ eq_refl eq_refl eq_refl eq_refl).
Defined.

(** A search with a single match returns its identifier. *)
Lemma get_resource_record_id_cases_witness :
  fst (get_resource_record_id (R:=runtime) client "home.example.com" "A"
         (world [found [rec_a]]))
  = Ok (PStr "id-a").
Proof.
  edestruct (get_resource_record_id_cases (R:=runtime) client "home.example.com" "A"
               (world [found [rec_a]])) as (_ & _ & _ & H);
    [reflexivity | reflexivity |].
  rewrite (H _ _ eq_refl eq_refl). reflexivity.
Defined.

(** The claim's wording of the message is not the one raised. *)
Lemma get_resource_record_id_message_counterexample :
  fst (get_resource_record_id (R:=runtime) client "home.example.com" "A"
         (world [found []]))
  <> Raise (DNSAPIException (PInt 404) (PStr "No matching record found")).
Proof. vm_compute. intros H. discriminate H. Qed.

(** An update answered with the one record returns it. *)
Lemma update_resource_record_selects_witness :
  fst (update_resource_record (R:=runtime) client "home.example.com" "A" "203.0.113.5" None
         (world [found [rec_a]; updated [rec_aaaa; rec_a]]))
  = Ok rec_a.
Proof.
  edestruct (update_resource_record_selects (R:=runtime) client "home.example.com" "A"
               "203.0.113.5" None (world [found [rec_a]; updated [rec_aaaa; rec_a]]))
    as (_ & _ & H);
    [reflexivity | reflexivity | reflexivity
    | repeat constructor; eexists; reflexivity |].
  rewrite (H _ eq_refl). reflexivity.
Defined.

(** The claim's wording of the message is not the one raised. *)
Lemma update_resource_record_message_counterexample :
  fst (update_resource_record (R:=runtime) client "home.example.com" "A" "203.0.113.5" None
         (world [found [rec_a]; updated []]))
  <> Raise (DNSAPIException (PInt 500)
              (PStr "update succeeded but updated record not found in response")).
Proof. vm_compute. intros H. discriminate H. Qed.

(** A ttl of 59 sends the default of 300, a ttl of 60 sends 60. *)
Lemma update_resource_record_sends_effective_ttl_witness :
  (exists payload,
      calls (snd (update_resource_record (R:=runtime) client "home.example.com" "A"
                    "203.0.113.5" (Some 59)
                    (world [found [rec_a]; updated [rec_a]])))
      = [((base_url client ++ "/" ++ "recordsFind")%string,
          find_payload client "home.example.com" "A");
         ((base_url client ++ "/" ++ "recordsUpdate")%string, payload)] /\
      sent_ttl payload = Some (PInt 300)) /\
  (exists payload,
      calls (snd (update_resource_record (R:=runtime) client "home.example.com" "A"
                    "203.0.113.5" (Some 60)
                    (world [found [rec_a]; updated [rec_a]])))
      = [((base_url client ++ "/" ++ "recordsFind")%string,
          find_payload client "home.example.com" "A");
         ((base_url client ++ "/" ++ "recordsUpdate")%string, payload)] /\
      sent_ttl payload = Some (PInt 60)).
Proof.
  split.
  - edestruct (update_resource_record_sends_effective_ttl (R:=runtime) client
                 "home.example.com" "A" "203.0.113.5" (Some 59)
                 (world [found [rec_a]; updated [rec_a]]))
      as (payload & Hcalls & _ & _ & _ & H59 & _); [reflexivity|].
    exists payload. split; [exact Hcalls | exact (H59 eq_refl)].
  - edestruct (update_resource_record_sends_effective_ttl (R:=runtime) client
                 "home.example.com" "A" "203.0.113.5" (Some 60)
                 (world [found [rec_a]; updated [rec_a]]))
      as (payload & Hcalls & _ & _ & _ & _ & H60); [reflexivity|].
    exists payload. split; [exact Hcalls | exact (H60 eq_refl)].
Defined.

(** A domain off the list is answered with 403. *)
Lemma forbidden_iff_not_on_allowlist_witness :
  Root_init client (PList [PStr "home.example.com"]) = Ok listed_root /\
  http_status (dyndns (R:=runtime) listed_root (Some "other.example.com")
                 (Some "203.0.113.5") None None (world []))
  = 403.
Proof.
  split; [reflexivity|].
  apply (forbidden_iff_not_on_allowlist (R:=runtime) client
           (PList [PStr "home.example.com"]) listed_root (Some "other.example.com")
           (Some "203.0.113.5") None None (world []) eq_refl eq_refl eq_refl).
  exists [PStr "home.example.com"]. repeat split; [discriminate|].
  intros [H | []]. discriminate H.
Defined.

(** A request without an address is answered with 400 and sends nothing. *)
Lemma no_address_is_rejected_witness :
  let run := dyndns (R:=runtime) open_root (Some "home.example.com") None (Some "")
               (Some 300) (world [found [rec_a]]) in
  fst run = Ok "Neither a v4 nor a v6 address given." /\
  status (snd run) = Some 400 /\
  http_status run = 400 /\
  calls (snd run) = [] /\
  remaining (snd run) = [found [rec_a]].
Proof.
  exact (no_address_is_rejected (R:=runtime) open_root (Some "home.example.com") None
           (Some "") (Some 300) (world [found [rec_a]])
           eq_refl (or_introl eq_refl) eq_refl eq_refl).
Defined.

Lemma families_are_independent_witness :
  let run := dyndns (R:=runtime) open_root (Some "home.example.com")
               (Some "203.0.113.5") (Some "2001:db8::5") None
               (world a_ok_aaaa_fails) in
  embedded_error (ok_json (failed 500 "internal error")) (PInt 500)
    (PStr "internal error") /\
  fst run
  = Ok ("Successfully updated A record for home.example.com to 203.0.113.5" ++ nl
          ++ "Failed to update AAAA record: 500 - internal error") /\
  http_status run = 400.
Proof.
  assert (Herr : embedded_error (ok_json (failed 500 "internal error")) (PInt 500)
                   (PStr "internal error")).
  { split; [reflexivity|]. do 3 eexists. repeat split; reflexivity. }
  split; [exact Herr|].
  destruct (families_are_independent (R:=runtime) open_root (Some "home.example.com")
              (Some "203.0.113.5") (Some "2001:db8::5") None (world a_ok_aaaa_fails)
              eq_refl (or_introl eq_refl) eq_refl eq_refl eq_refl) as (H & _).
  edestruct (H (Ok rec_a)) as (Hbody & Hstatus & _);
    [ reflexivity | reflexivity
    | right; do 3 eexists; split; reflexivity
    | exact Herr | ].
  split; [exact Hbody | exact Hstatus].
Defined.

(** Three runs outside the claim as worded.  The A search is answered with a
    page that is not JSON: the handler raises, the AAAA record, in good
    order, is never asked for.  The A update returns a record without
    [lastChangeDate]: the handler raises although the AAAA update fails with
    the embedded error.  The error entry carries a [value]: the failure line
    is another one. *)
Lemma families_are_independent_counterexample :
  (fst (dyndns (R:=runtime) open_root (Some "home.example.com") (Some "203.0.113.5")
          (Some "2001:db8::5") None (world a_unreadable_aaaa_fine))
   = Raise JSONDecodeError /\
   remaining (snd (dyndns (R:=runtime) open_root (Some "home.example.com")
                     (Some "203.0.113.5") (Some "2001:db8::5") None
                     (world a_unreadable_aaaa_fine)))
   = [found [rec_aaaa]; updated [rec_aaaa]]) /\
  http_status (dyndns (R:=runtime) open_root (Some "home.example.com")
                 (Some "203.0.113.5") (Some "2001:db8::5") None (world a_bare_aaaa_fails))
  <> 400 /\
  (fst (dyndns (R:=runtime) open_root (Some "home.example.com") (Some "203.0.113.5")
          (Some "2001:db8::5") None (world a_ok_aaaa_fails_with_value))
   = Ok ("Successfully updated A record for home.example.com to 203.0.113.5" ++ nl
           ++ "Failed to update AAAA record: 500 - ttl - internal error") /\
   fst (dyndns (R:=runtime) open_root (Some "home.example.com") (Some "203.0.113.5")
          (Some "2001:db8::5") None (world a_ok_aaaa_fails_with_value))
   <> Ok ("Successfully updated A record for home.example.com to 203.0.113.5" ++ nl
            ++ "Failed to update AAAA record: 500 - internal error")).
Proof.
  split; [split; reflexivity|]. split; [vm_compute; discriminate|].
  split; [reflexivity|]. vm_compute. discriminate.
Qed.

(** Two answers outside the claim as worded: a 500 whose body is neither JSON
    nor UTF-8 raises the decoding error, and a 200 whose error entry has no
    [text] raises [KeyError]; neither is the API error. *)
Lemma api_request_two_tier_counterexample :
  (fst (api_request (R:=runtime) client "recordsFind" PNone (world [undecodable]))
   = Raise UnicodeDecodeError /\
   ~ exists code detail,
       fst (api_request (R:=runtime) client "recordsFind" PNone (world [undecodable]))
       = Raise (DNSAPIException code detail)) /\
  (fst (api_request (R:=runtime) client "recordsFind" PNone (world [ok_json no_text]))
   = Raise (KeyError "text") /\
   ~ exists code detail,
       fst (api_request (R:=runtime) client "recordsFind" PNone (world [ok_json no_text]))
       = Raise (DNSAPIException code detail)).
Proof.
  split; (split; [reflexivity|]); intros (code & detail & H); vm_compute in H;
    discriminate H.
Qed.

(** A request without a domain is answered with 400 and sends nothing. *)
Lemma validation_never_calls_provider_witness :
  let run := dyndns (R:=runtime) listed_root None (Some "203.0.113.5") None None
               (world [found [rec_a]]) in
  (exists msg,
      fst run = Ok msg /\
      In msg ["DynDNS target domain missing.";
              "Requested DynDNS domain ist not on the allowlist.";
              "Neither a v4 nor a v6 address given."]) /\
  (http_status run = 400 \/ http_status run = 403) /\
  calls (snd run) = [] /\
  remaining (snd run) = [found [rec_a]].
Proof.
  exact (validation_never_calls_provider (R:=runtime) client
           (PList [PStr "home.example.com"]) listed_root None (Some "203.0.113.5")
           None None (world [found [rec_a]]) eq_refl (or_introl eq_refl)).
Defined.

(** Two failures are listed A first, AAAA second. *)
Lemma body_lists_a_before_aaaa_witness :
  fst (dyndns (R:=runtime) open_root (Some "home.example.com")
         (Some "203.0.113.5") (Some "2001:db8::5") None
         (world [found []; found [rec_a; rec_aaaa]]))
  = Ok ("Failed to update A record: 404 - No matching record found."
          ++ String (ascii_of_nat 10)
               "Failed to update AAAA record: 400 - More than one matching record found, cannot continue.").
Proof.
  edestruct (body_lists_a_before_aaaa (R:=runtime) open_root (Some "home.example.com")
               (Some "203.0.113.5") (Some "2001:db8::5") None
               (world [found []; found [rec_a; rec_aaaa]]))
    as (_ & H);
    [ reflexivity | left; reflexivity | reflexivity | reflexivity | ].
  rewrite (H _ _ _ _ _ _ eq_refl eq_refl eq_refl eq_refl). reflexivity.
Defined.

End Runs.

(* ===================================================================== *)
(** ** Further properties of the client *)
(* ===================================================================== *)

Section ClientEdges.

Context {R : Runtime}.

(** X1. [api_request] sends exactly one request, to the endpoint under the
    base URL and with the payload it was given, whatever the answer is; the
    log and the response of the handler are not touched. *)
Theorem api_request_sends_one_request
    (self : HostingDEDNSAPIClient) (endpoint : string) (payload : pyval) (w : World) :
  let w' := snd (api_request self endpoint payload w) in
  calls w' = (calls w ++ [((base_url self ++ "/" ++ endpoint)%string, payload)])%list /\
  log w' = log w /\ status w' = status w /\ headers w' = headers w.
Proof.
  cbv zeta.
  destruct (api_request_frame self endpoint payload w) as [(Hl & Hs & Hh) Hc].
  auto.
Qed.

(** X2. An exception of the transport itself is not translated: it leaves
    [api_request] as it is. *)
Theorem api_request_transport_exception
    (self : HostingDEDNSAPIClient) (endpoint : string) (payload : pyval)
    (w : World) (e : exn) (s' : Srv) :
  post (base_url self ++ "/" ++ endpoint) payload (srv w) = (Raise e, s') ->
  api_request self endpoint payload w
  = (Raise e, sent w s' (base_url self ++ "/" ++ endpoint) payload).
Proof.
  intros Hpost. unfold api_request, bind at 1, requests_post. rewrite Hpost. reflexivity.
Qed.

(** X3. A 200 answer that is not a well-formed envelope does not raise the API
    error: a body that is not JSON raises [JSONDecodeError], a document that
    is not an object raises [TypeError], and an object without embedded
    errors and without [response] member raises [KeyError]. *)
Theorem api_request_malformed_envelope
    (self : HostingDEDNSAPIClient) (endpoint : string) (payload : pyval)
    (w : World) (r : Response) (s' : Srv) :
  post (base_url self ++ "/" ++ endpoint) payload (srv w) = (Ok r, s') ->
  status_code r = 200 ->
  let run := api_request self endpoint payload w in
  (json_body r = None -> fst run = Raise JSONDecodeError) /\
  (forall v, json_body r = Some v -> (forall doc, v <> PDict doc) ->
             fst run = Raise TypeError) /\
  (forall doc, json_body r = Some (PDict doc) -> no_embedded_errors doc ->
               lookup "response" doc = None ->
               fst run = Raise (KeyError "response")).
Proof.
  intros Hpost Hs run. subst run.
  unfold api_request. unfold_m. rewrite Hpost. cbn [fst snd].
  apply eqb_200 in Hs. rewrite Hs. cbn [negb]. unfold response_json.
  repeat split.
  - intros ->. reflexivity.
  - intros v -> Hnot.
    destruct v as [| | |s|l|doc]; cbn; try reflexivity.
    + destruct (substringb "errors" s); reflexivity.
    + destruct (existsb _ l); reflexivity.
    + exfalso. exact (Hnot doc eq_refl).
  - intros doc -> Hno Hresp. cbn.
    destruct Hno as [Hnone | (errs & He & Hlen)].
    + rewrite Hnone. cbn. rewrite Hresp. reflexivity.
    + rewrite He. cbn. rewrite Hlen. cbn. rewrite Hresp. reflexivity.
Qed.

(** X4. A first embedded error entry without [text] raises [KeyError] for
    [text]; one with [text] but without [code] raises [KeyError] for [code].
    Neither is reported as an API error. *)
Theorem api_request_incomplete_error_entry
    (self : HostingDEDNSAPIClient) (endpoint : string) (payload : pyval)
    (w : World) (r : Response) (s' : Srv)
    (doc entry : list (string * pyval)) (rest : list pyval) :
  post (base_url self ++ "/" ++ endpoint) payload (srv w) = (Ok r, s') ->
  status_code r = 200 ->
  json_body r = Some (PDict doc) ->
  lookup "errors" doc = Some (PList (PDict entry :: rest)) ->
  let run := api_request self endpoint payload w in
  (lookup "text" entry = None -> fst run = Raise (KeyError "text")) /\
  (forall text, lookup "text" entry = Some text -> lookup "code" entry = None ->
                fst run = Raise (KeyError "code")).
Proof.
  intros Hpost Hs Hdoc Herr run. subst run.
  unfold api_request. unfold_m. rewrite Hpost. cbn [fst snd].
  apply eqb_200 in Hs. rewrite Hs. cbn [negb]. unfold response_json. rewrite Hdoc.
  cbn. rewrite Herr. cbn. unfold get, get_default.
  split.
  - intros Htext. destruct (lookup "value" entry) as [v|]; cbn.
    + destruct (truthy v); cbn; rewrite Htext; reflexivity.
    + rewrite Htext. reflexivity.
  - intros text Htext Hcode. destruct (lookup "value" entry) as [v|]; cbn.
    + destruct (truthy v); cbn; rewrite Htext; cbn; rewrite Hcode; reflexivity.
    + rewrite Htext. cbn. rewrite Hcode. reflexivity.
Qed.

(** X5. Where an API error of [api_request] comes from: either the status is
    not 200 and the error carries it with the decoded body, or the status is
    200 and the document's [errors] list starts with an entry whose [code]
    and message the error carries. *)
Theorem api_request_error_origin
    (self : HostingDEDNSAPIClient) (endpoint : string) (payload : pyval)
    (w w' : World) (r : Response) (s' : Srv) (code data : pyval) :
  post (base_url self ++ "/" ++ endpoint) payload (srv w) = (Ok r, s') ->
  api_request self endpoint payload w = (Raise (DNSAPIException code data), w') ->
  (status_code r <> 200 /\ code = PInt (status_code r) /\
   (json_body r = Some data \/
    exists text, json_body r = None /\ content_utf8 r = Some text /\ data = PStr text)) \/
  (status_code r = 200 /\
   exists doc entry rest text,
     json_body r = Some (PDict doc) /\
     lookup "errors" doc = Some (PList (PDict entry :: rest)) /\
     lookup "code" entry = Some code /\
     lookup "text" entry = Some text /\
     data = embedded_message entry text).
Proof.
  intros Hpost. unfold api_request. unfold_m. rewrite Hpost.
  destruct (status_code r =? 200) eqn:Hs; cbn [negb].
  - apply eqb_200 in Hs. intros Hrun. right. split; [exact Hs|].
    unfold response_json in Hrun.
    destruct (json_body r) as [j|]; [|discriminate].
    destruct j as [| | |s|l|doc]; cbn in Hrun; try discriminate;
      try (destruct (substringb "errors" s); cbn in Hrun; discriminate);
      try (destruct (existsb _ l); cbn in Hrun; discriminate).
    destruct (lookup "errors" doc) as [errs|] eqn:He; cbn in Hrun.
    2: { destruct (lookup "response" doc); discriminate. }
    destruct errs as [| | |s|l|d]; cbn in Hrun; try discriminate.
    + destruct (str_len s =? 0); cbn in Hrun.
      * destruct (lookup "response" doc); discriminate.
      * destruct s; cbn in Hrun; discriminate.
    + destruct l as [|first rest]; cbn in Hrun.
      { destruct (lookup "response" doc); discriminate. }
      destruct first as [| | | | |entry]; cbn in Hrun; try discriminate.
      destruct (lookup "value" entry) as [v|] eqn:Hv; cbn in Hrun.
      * destruct (truthy v) eqn:Htv; cbn in Hrun;
          (destruct (lookup "text" entry) as [text|] eqn:Ht; cbn in Hrun; [|discriminate]);
          (destruct (lookup "code" entry) as [c|] eqn:Hc; cbn in Hrun; [|discriminate]);
          injection Hrun as <- <- _;
          exists doc, entry, rest, text; unfold embedded_message; rewrite Hv, Htv; auto.
      * destruct (lookup "text" entry) as [text|] eqn:Ht; cbn in Hrun; [|discriminate].
        destruct (lookup "code" entry) as [c|] eqn:Hc; cbn in Hrun; [|discriminate].
        injection Hrun as <- <- _.
        exists doc, entry, rest, text. unfold embedded_message. rewrite Hv. auto.
    + destruct d; cbn in Hrun; [|discriminate].
      destruct (lookup "response" doc); discriminate.
  - assert (Hne : status_code r <> 200).
    { intros E. apply eqb_200 in E. congruence. }
    intros Hrun. left. split; [exact Hne|].
    unfold response_json, content_decode in Hrun.
    destruct (json_body r) as [j|]; cbn in Hrun.
    + injection Hrun as <- <- _. auto.
    + destruct (content_utf8 r) as [t|]; cbn in Hrun; [|discriminate].
      injection Hrun as <- <- _. split; [reflexivity|]. right. exists t. auto.
Qed.

End ClientEdges.

(* ===================================================================== *)
(** ** Further properties of lookup and update *)
(* ===================================================================== *)

Section LookupAndUpdate.

Context {R : Runtime}.

Lemma find_call (self : HostingDEDNSAPIClient) (record_name record_type : string)
    (w : World) :
  let w' := snd (get_resource_record_id self record_name record_type w) in
  response_kept w w' /\
  calls w' = (calls w ++ [((base_url self ++ "/" ++ "recordsFind")%string,
                           find_payload self record_name record_type)])%list.
Proof.
  cbv zeta. rewrite get_resource_record_id_world. apply api_request_frame.
Qed.

(** What a returned identifier tells about the search. *)
Lemma get_resource_record_id_inv (self : HostingDEDNSAPIClient)
    (record_name record_type : string) (w w1 : World) (id : pyval) :
  get_resource_record_id self record_name record_type w = (Ok id, w1) ->
  truthy id = true /\
  exists result fields,
    api_request self "recordsFind" (find_payload self record_name record_type) w
    = (Ok result, w1) /\
    (getitem result "data" = Ok (PList [PDict fields])) /\
    lookup "id" fields = Some id.
Proof.
  unfold get_resource_record_id, bind at 1.
  destruct (api_request self "recordsFind" (find_payload self record_name record_type) w)
    as [[result|e] w0]; [|discriminate].
  unfold_m.
  destruct result as [| | | | |doc]; cbn; try discriminate.
  destruct (lookup "data" doc) as [data|] eqn:Hdata; cbn; [|discriminate].
  destruct data as [| | |s|l|d]; cbn [py_len]; try discriminate.
  - destruct (str_len s =? 0); [discriminate|].
    destruct (1 <? str_len s); [discriminate|].
    destruct s; cbn; discriminate.
  - destruct (Z.of_nat (List.length l) =? 0) eqn:H0; [discriminate|].
    destruct (1 <? Z.of_nat (List.length l)) eqn:H1; [discriminate|].
    apply Z.eqb_neq in H0. apply Z.ltb_ge in H1.
    destruct l as [|first [|second rest]]; cbn [List.length] in H0, H1; try lia.
    destruct first as [| | | | |fields]; cbn; try discriminate.
    unfold get, get_default.
    destruct (lookup "id" fields) as [i|] eqn:Hi; cbn; [|discriminate].
    destruct (truthy i) eqn:Hti; cbn; [|discriminate].
    intros H. injection H as <- <-.
    split; [exact Hti|]. exists (PDict doc), fields. cbn. rewrite Hdata. auto.
  - destruct (Z.of_nat (List.length d) =? 0) eqn:H0; [discriminate|].
    destruct (1 <? Z.of_nat (List.length d)) eqn:H1; [discriminate|].
    discriminate.
Qed.

(** X6. A lookup is one search and nothing else: it sends exactly one request,
    to [recordsFind], with the token and the conjunction of the two
    conditions on [RecordName] and [RecordType], whatever the outcome. *)
Theorem get_resource_record_id_one_search
    (self : HostingDEDNSAPIClient) (record_name record_type : string) (w : World) :
  let w' := snd (get_resource_record_id self record_name record_type w) in
  exists payload,
    calls w' = (calls w ++ [((base_url self ++ "/" ++ "recordsFind")%string, payload)])%list /\
    payload_member payload "authToken" = Some (token self) /\
    search_conditions payload
    = Some [PDict [("field", PStr "RecordName"); ("value", PStr record_name)];
            PDict [("field", PStr "RecordType"); ("value", PStr record_type)]] /\
    log w' = log w /\ status w' = status w /\ headers w' = headers w.
Proof.
  cbv zeta. destruct (find_call self record_name record_type w) as [(Hl & Hs & Hh) Hc].
  exists (find_payload self record_name record_type). repeat split; assumption.
Qed.

(** X7. An identifier that [get_resource_record_id] returns is never empty: it
    is the truthy [id] member of the only entry of the search's [data]. *)
Theorem get_resource_record_id_returns_nonempty
    (self : HostingDEDNSAPIClient) (record_name record_type : string)
    (w w1 : World) (id : pyval) :
  get_resource_record_id self record_name record_type w = (Ok id, w1) ->
  truthy id = true /\
  exists result fields,
    api_request self "recordsFind" (find_payload self record_name record_type) w
    = (Ok result, w1) /\
    getitem result "data" = Ok (PList [PDict fields]) /\
    lookup "id" fields = Some id.
Proof. apply get_resource_record_id_inv. Qed.

(** X8. Where an API error of a lookup comes from: the search call raised it,
    or it is one of the three errors the lookup raises itself. *)
Theorem get_resource_record_id_error_origin
    (self : HostingDEDNSAPIClient) (record_name record_type : string)
    (w w1 : World) (code data : pyval) :
  get_resource_record_id self record_name record_type w
  = (Raise (DNSAPIException code data), w1) ->
  api_request self "recordsFind" (find_payload self record_name record_type) w
  = (Raise (DNSAPIException code data), w1) \/
  In (code, data)
     [(PInt 404, PStr "No matching record found.");
      (PInt 400, PStr "More than one matching record found, cannot continue.");
      (PInt 404, PStr "Could not find ID for record in response.")].
Proof.
  unfold get_resource_record_id, bind at 1.
  destruct (api_request self "recordsFind" (find_payload self record_name record_type) w)
    as [[result|e] w0].
  2: { intros H. injection H as -> ->. left. reflexivity. }
  unfold_m. intros Hrun. right.
  destruct result as [| | | | |doc]; cbn in Hrun; try discriminate.
  destruct (lookup "data" doc) as [data0|]; cbn in Hrun; [|discriminate].
  destruct data0 as [| | |s|l|d]; cbn in Hrun; try discriminate.
  - destruct (str_len s =? 0); [injection Hrun as <- <- _; cbn; auto|].
    destruct (1 <? str_len s); [injection Hrun as <- <- _; cbn; auto|].
    destruct s; cbn in Hrun; discriminate.
  - destruct (Z.of_nat (List.length l) =? 0); [injection Hrun as <- <- _; cbn; auto|].
    destruct (1 <? Z.of_nat (List.length l)); [injection Hrun as <- <- _; cbn; auto|].
    destruct l as [|first rest]; cbn in Hrun; [discriminate|].
    destruct first as [| | | | |fields]; cbn in Hrun; try discriminate.
    unfold get, get_default in Hrun.
    destruct (lookup "id" fields) as [i|]; cbn in Hrun.
    + destruct (truthy i); cbn in Hrun; [discriminate|].
      injection Hrun as <- <- _. cbn. auto.
    + injection Hrun as <- <- _. cbn. auto.
  - destruct (Z.of_nat (List.length d) =? 0); [injection Hrun as <- <- _; cbn; auto|].
    destruct (1 <? Z.of_nat (List.length d)); [injection Hrun as <- <- _; cbn; auto|].
    discriminate.
Qed.

(** X9. A search payload the lookup cannot read does not give an API error:
    without [data] member the lookup raises [KeyError], and with a single
    match that is not an object it raises [AttributeError]. *)
Theorem get_resource_record_id_unreadable_payload
    (self : HostingDEDNSAPIClient) (record_name record_type : string)
    (w w1 : World) (result : pyval) :
  api_request self "recordsFind" (find_payload self record_name record_type) w
  = (Ok result, w1) ->
  let run := get_resource_record_id self record_name record_type w in
  (forall fields, result = PDict fields -> lookup "data" fields = None ->
                  run = (Raise (KeyError "data"), w1)) /\
  (forall first, getitem result "data" = Ok (PList [first]) ->
                 (forall fields, first <> PDict fields) ->
                 run = (Raise AttributeError, w1)).
Proof.
  intros Hreq run. subst run.
  unfold get_resource_record_id. rewrite (bind_ok _ _ _ _ _ Hreq). unfold_m. split.
  - intros fields -> Hnone. cbn. rewrite Hnone. reflexivity.
  - intros first Hdata Hnot. rewrite Hdata. cbn.
    destruct first; try reflexivity. exfalso. exact (Hnot _ eq_refl).
Qed.

End LookupAndUpdate.

Section UpdateEdges.

Context {R : Runtime}.

Lemma filter_by_id_sound (record_id : pyval) (entries kept : list pyval) :
  filter_by_id record_id entries = Ok kept ->
  Forall (fun entry => In entry entries /\ is_record entry /\
                       py_eq (entry_id entry) record_id = true) kept.
Proof.
  revert kept. induction entries as [|entry rest IH]; intros kept; cbn [filter_by_id].
  - intros H. injection H as <-. constructor.
  - destruct entry as [| | | | |fields]; cbn [get get_default]; try discriminate.
    destruct (filter_by_id record_id rest) as [k|]; [|destruct (lookup "id" fields); discriminate].
    specialize (IH k eq_refl).
    assert (Hrest : Forall (fun entry => In entry (PDict fields :: rest) /\ is_record entry /\
                                         py_eq (entry_id entry) record_id = true) k).
    { eapply Forall_impl; [|exact IH]. intros a (Hin & Hrec & Heq). split; [right|]; auto. }
    assert (Hhead : forall i, match lookup "id" fields with Some x => x | None => PNone end = i ->
                              py_eq i record_id = true ->
                              In (PDict fields) (PDict fields :: rest) /\
                              is_record (PDict fields) /\
                              py_eq (entry_id (PDict fields)) record_id = true).
    { intros i <- Heq. split; [left; reflexivity|]. split; [eexists; reflexivity|]. exact Heq. }
    destruct (lookup "id" fields) as [i|] eqn:Hi.
    + destruct (py_eq i record_id) eqn:Heq; intros H; injection H as <-; [|exact Hrest].
      constructor; [exact (Hhead i eq_refl Heq) | exact Hrest].
    + destruct (py_eq PNone record_id) eqn:Heq; intros H; injection H as <-; [|exact Hrest].
      constructor; [exact (Hhead PNone eq_refl Heq) | exact Hrest].
Qed.

(** The requests of one update: the search, and the update when the search
    gave an identifier. *)
Lemma update_calls (self : HostingDEDNSAPIClient)
    (record_name record_type record_data : string) (record_ttl : option Z) (w : World) :
  let run := update_resource_record self record_name record_type record_data record_ttl w in
  let find := ((base_url self ++ "/" ++ "recordsFind")%string,
               find_payload self record_name record_type) in
  (forall e w1, get_resource_record_id self record_name record_type w = (Raise e, w1) ->
                run = (Raise e, w1) /\ calls w1 = (calls w ++ [find])%list) /\
  (forall id w1, get_resource_record_id self record_name record_type w = (Ok id, w1) ->
                 calls (snd run)
                 = (calls w ++ [find;
                                ((base_url self ++ "/" ++ "recordsUpdate")%string,
                                 update_payload self id record_name record_type
                                   record_data record_ttl)])%list).
Proof.
  cbv zeta.
  destruct (find_call self record_name record_type w) as [_ Hfind]. cbv zeta in Hfind.
  split.
  - intros e w1 Hid. rewrite Hid in Hfind. cbn [snd] in Hfind.
    unfold update_resource_record. rewrite (bind_raise _ _ _ _ _ Hid). auto.
  - intros id w1 Hid. rewrite Hid in Hfind. cbn [snd] in Hfind.
    rewrite (update_tail_world _ _ _ _ _ _ _ _ Hid).
    destruct (api_request_frame self "recordsUpdate"
                (update_payload self id record_name record_type record_data record_ttl) w1)
      as [_ Hc].
    cbv zeta in Hc. rewrite Hc, Hfind, <- app_assoc. reflexivity.
Qed.

(** X10. When the lookup fails, the update fails with the same exception and
    no update is sent: the search is the only request. *)
Theorem update_resource_record_lookup_failure
    (self : HostingDEDNSAPIClient) (record_name record_type record_data : string)
    (record_ttl : option Z) (w w1 : World) (e : exn) :
  get_resource_record_id self record_name record_type w = (Raise e, w1) ->
  update_resource_record self record_name record_type record_data record_ttl w
  = (Raise e, w1) /\
  calls w1 = (calls w ++ [((base_url self ++ "/" ++ "recordsFind")%string,
                           find_payload self record_name record_type)])%list.
Proof.
  intros Hid.
  exact (proj1 (update_calls self record_name record_type record_data record_ttl w) e w1 Hid).
Qed.

(** X11. When the lookup gives an identifier, the update sends exactly two
    requests, the search and then one [recordsUpdate] whose single record
    carries that identifier, the name, type and content asked for and the
    fixed comment, under the client's token and zone; an exception of the
    update call leaves [update_resource_record] unchanged. *)
Theorem update_resource_record_requests
    (self : HostingDEDNSAPIClient) (record_name record_type record_data : string)
    (record_ttl : option Z) (w w1 : World) (id : pyval) :
  get_resource_record_id self record_name record_type w = (Ok id, w1) ->
  let run := update_resource_record self record_name record_type record_data record_ttl w in
  (exists payload rec,
      calls (snd run)
      = (calls w ++ [((base_url self ++ "/" ++ "recordsFind")%string,
                      find_payload self record_name record_type);
                     ((base_url self ++ "/" ++ "recordsUpdate")%string, payload)])%list /\
      payload_member payload "authToken" = Some (token self) /\
      payload_member payload "zoneName" = Some (zone self) /\
      sent_record payload = Some rec /\
      lookup "id" rec = Some id /\
      lookup "name" rec = Some (PStr record_name) /\
      lookup "type" rec = Some (PStr record_type) /\
      lookup "content" rec = Some (PStr record_data) /\
      lookup "comments" rec
      = Some (PStr "DynDNS Record - automatically managed, do not change!")) /\
  (forall e w2,
      api_request self "recordsUpdate"
        (update_payload self id record_name record_type record_data record_ttl) w1
      = (Raise e, w2) ->
      run = (Raise e, w2)).
Proof.
  intros Hid run. subst run. split.
  - eexists. eexists. split.
    + exact (proj2 (update_calls self record_name record_type record_data record_ttl w)
               id w1 Hid).
    + cbn. repeat split; reflexivity.
  - intros e w2 Hreq. unfold update_resource_record.
    rewrite (bind_ok _ _ _ _ _ Hid). apply bind_raise. exact Hreq.
Qed.

(** X12. A record that [update_resource_record] returns is an object of the
    update response whose [id] equals the non-empty identifier the lookup
    found. *)
Theorem update_resource_record_returns_matching_record
    (self : HostingDEDNSAPIClient) (record_name record_type record_data : string)
    (record_ttl : option Z) (w w' : World) (rec : pyval) :
  update_resource_record self record_name record_type record_data record_ttl w
  = (Ok rec, w') ->
  exists id w1 result entries,
    get_resource_record_id self record_name record_type w = (Ok id, w1) /\
    truthy id = true /\
    api_request self "recordsUpdate"
      (update_payload self id record_name record_type record_data record_ttl) w1
    = (Ok result, w') /\
    and_then (get_default result "records" (PList [])) iter = Ok entries /\
    In rec entries /\
    is_record rec /\
    py_eq (entry_id rec) id = true.
Proof.
  unfold update_resource_record, bind at 1.
  destruct (get_resource_record_id self record_name record_type w) as [[id|e] w1] eqn:Hid;
    [|discriminate].
  unfold bind at 1.
  destruct (api_request self "recordsUpdate"
              (update_payload self id record_name record_type record_data record_ttl) w1)
    as [[result|e] w2] eqn:Hreq; [|discriminate].
  unfold_m.
  destruct (get_default result "records" (PList [])) as [records|] eqn:Hrec; [|discriminate].
  destruct (iter records) as [entries|] eqn:Hiter; [|discriminate].
  destruct (filter_by_id id entries) as [kept|] eqn:Hkept; [|discriminate].
  destruct kept as [|one [|two more]]; try discriminate.
  intros H. injection H as <- <-.
  pose proof (filter_by_id_sound _ _ _ Hkept) as Hall.
  inversion Hall as [|x l (Hin & Hisrec & Heq) _]; subst.
  exists id, w1, result, entries. cbn [and_then].
  destruct (get_resource_record_id_inv _ _ _ _ _ _ Hid) as [Ht _].
  repeat split; try assumption.
  rewrite Hrec. exact Hiter.
Qed.

(** X13. An update response the client cannot read does not give an API
    error: a payload that is not an object, or a collection with an entry
    that is not an object, raises [AttributeError], after the update has been
    sent. *)
Theorem update_resource_record_unreadable_response
    (self : HostingDEDNSAPIClient) (record_name record_type record_data : string)
    (record_ttl : option Z) (w w1 w2 : World) (id result : pyval) :
  get_resource_record_id self record_name record_type w = (Ok id, w1) ->
  api_request self "recordsUpdate"
    (update_payload self id record_name record_type record_data record_ttl) w1
  = (Ok result, w2) ->
  let run := update_resource_record self record_name record_type record_data record_ttl w in
  ((forall fields, result <> PDict fields) -> run = (Raise AttributeError, w2)) /\
  (forall records, get_default result "records" (PList []) = Ok (PList records) ->
                   ~ Forall is_record records ->
                   run = (Raise AttributeError, w2)).
Proof.
  intros Hid Hreq run. subst run.
  unfold update_resource_record.
  rewrite (bind_ok _ _ _ _ _ Hid), (bind_ok _ _ _ _ _ Hreq). unfold_m. split.
  - intros Hnot. destruct result; try reflexivity. exfalso. exact (Hnot _ eq_refl).
  - intros records -> Hbad. cbn [iter].
    assert (Hf : filter_by_id id records = Raise AttributeError).
    { induction records as [|entry rest IH]; [exfalso; apply Hbad; constructor|].
      cbn [filter_by_id].
      destruct entry as [| | | | |fields]; try reflexivity.
      rewrite IH.
      - cbn. destruct (lookup "id" fields); reflexivity.
      - intros Hrest. apply Hbad. constructor; [eexists; reflexivity | exact Hrest]. }
    rewrite Hf. reflexivity.
Qed.

End UpdateEdges.

(* ===================================================================== *)
(** ** Further properties of the handler *)
(* ===================================================================== *)

Section HandlerEdges.

Context {R : Runtime}.

(** An exception that is not the API error goes through the wrapper. *)
Lemma update_wrapper_escapes (self : Root) (domain : string) (ttl : option Z)
    (results : list string) (record_type record_data : string)
    (w w1 : World) (e : exn) :
  update_resource_record (dns_client self) domain record_type record_data ttl w
  = (Raise e, w1) ->
  is_DNSAPIException e = false ->
  update_wrapper self domain ttl results record_type record_data w = (Raise e, w1).
Proof.
  intros Hrun He. unfold update_wrapper, try_except, bind at 1. rewrite Hrun.
  destruct e; try reflexivity. discriminate He.
Qed.

(** A record without one of the members the handler reads makes the wrapper
    raise [KeyError] for the first one missing. *)
Lemma update_wrapper_incomplete (self : Root) (domain : string) (ttl : option Z)
    (results : list string) (record_type record_data : string)
    (w w1 : World) (fields : list (string * pyval)) :
  update_resource_record (dns_client self) domain record_type record_data ttl w
  = (Ok (PDict fields), w1) ->
  (exists k, In k handler_reads /\ lookup k fields = None) ->
  exists k, In k handler_reads /\ lookup k fields = None /\
            update_wrapper self domain ttl results record_type record_data w
            = (Raise (KeyError k), w1).
Proof.
  intros Hrun Hmiss. unfold update_wrapper, try_except, bind at 1. rewrite Hrun.
  unfold_m. cbn [getitem]. unfold handler_reads.
  destruct (lookup "name" fields) eqn:Hn.
  2: { exists "name". cbn. auto. }
  destruct (lookup "content" fields) eqn:Hc.
  2: { exists "content". cbn. auto. }
  destruct (lookup "ttl" fields) eqn:Ht.
  2: { exists "ttl". cbn. auto. }
  destruct (lookup "lastChangeDate" fields) eqn:Hd.
  2: { exists "lastChangeDate". cbn. auto 6. }
  exfalso. destruct Hmiss as (k & Hin & Hk).
  cbn in Hin. destruct Hin as [<- | [<- | [<- | [<- | []]]]]; congruence.
Qed.

(** The wrapper sends what the update sends, at most two requests. *)
Lemma update_wrapper_calls (self : Root) (domain : string) (ttl : option Z)
    (results : list string) (record_type record_data : string) (w : World) :
  exists more,
    calls (snd (update_wrapper self domain ttl results record_type record_data w))
    = (calls w ++ more)%list /\
    (List.length more <= 2)%nat.
Proof.
  pose proof (update_calls (dns_client self) domain record_type record_data ttl w)
    as [Hfail Hok].
  cbv zeta in Hfail, Hok.
  assert (Hupd : exists more,
             calls (snd (update_resource_record (dns_client self) domain record_type
                           record_data ttl w)) = (calls w ++ more)%list /\
             (List.length more <= 2)%nat).
  { destruct (get_resource_record_id (dns_client self) domain record_type w)
      as [[id|e] w1] eqn:Hid.
    - eexists. split; [exact (Hok id w1 eq_refl) | cbn; lia].
    - destruct (Hfail e w1 eq_refl) as [Hrun Hc]. rewrite Hrun. cbn [snd].
      eexists. split; [exact Hc | cbn; lia]. }
  destruct Hupd as (more & Hc & Hlen). exists more. split; [|exact Hlen].
  rewrite <- Hc.
  destruct (update_wrapper self domain ttl results record_type record_data w)
    as [res w'] eqn:E.
  cbn [snd]. revert E. unfold update_wrapper, try_except, bind at 1.
  destruct (update_resource_record (dns_client self) domain record_type record_data ttl w)
    as [[rec|e] w1]; cbn [snd].
  - unfold_m.
    repeat match goal with
           | |- context [match getitem ?a ?b with _ => _ end] =>
               destruct (getitem a b) as [?|[]]
           end; cbn; intros E; injection E as <- <-; reflexivity.
  - destruct e; cbn; intros E; injection E as <- <-; reflexivity.
Qed.

Lemma set_header_sets (k v : string) (w : World) :
  In (k, v) (headers (snd (set_header k v w))).
Proof.
  unfold set_header. cbn [snd headers].
  destruct (existsb (fun kv => String.eqb (fst kv) k) (headers w)) eqn:E.
  - apply existsb_exists in E. destruct E as ([k' v'] & Hin & Hk).
    apply in_map_iff. exists (k', v'). split; [|exact Hin].
    cbn [fst] in *. rewrite Hk. reflexivity.
  - apply in_or_app. right. left. reflexivity.
Qed.

(** One family only: the line of its outcome, in the world its update left. *)
Lemma dyndns_one_family (self : Root) (domain ipv4 ipv6 : option string) (ttl : option Z)
    (w w1 : World) (r : result pyval) (o : outcome) (record_type : string)
    (address : option string) :
  truthy_str domain = true ->
  allowlist_passes self (param domain) ->
  (truthy_str ipv4 = true /\ truthy_str ipv6 = false /\
   record_type = "A" /\ address = ipv4) \/
  (truthy_str ipv4 = false /\ truthy_str ipv6 = true /\
   record_type = "AAAA" /\ address = ipv6) ->
  update_resource_record (dns_client self) (param domain) record_type (param address) ttl w
  = (r, w1) ->
  outcome_of r = Some o ->
  dyndns self domain ipv4 ipv6 ttl w
  = (Ok (outcome_line record_type o),
     snd (set_header "Content-Type" "text/plain"
            (after_outcome (param domain) (param address) ttl record_type o w1))).
Proof.
  intros Hdom Hallow Hfam Hrun Ho.
  destruct Hfam as [(H4 & H6 & -> & ->) | (H4 & H6 & -> & ->)];
    rewrite dyndns_updates by auto; rewrite H4, H6.
  - rewrite (bind_ok _ _ _ _ _ (update_wrapper_outcome _ _ _ [] _ _ _ _ _ _ Hrun Ho)).
    reflexivity.
  - unfold bind at 1. unfold ret at 1.
    rewrite (bind_ok _ _ _ _ _ (update_wrapper_outcome _ _ _ [] _ _ _ _ _ _ Hrun Ho)).
    reflexivity.
Qed.

(** X14. A request with an IPv4 address only: the body is the single line of
    the A outcome, the status is 200 after a success and 400 after a failure,
    the content type is [text/plain], and nothing is sent after the A
    update, so no AAAA record is looked up. *)
Theorem dyndns_ipv4_only
    (self : Root) (domain ipv4 ipv6 : option string) (ttl : option Z)
    (w w1 : World) (r : result pyval) (o : outcome) :
  truthy_str domain = true ->
  allowlist_passes self (param domain) ->
  truthy_str ipv4 = true -> truthy_str ipv6 = false ->
  status w = None ->
  update_resource_record (dns_client self) (param domain) "A" (param ipv4) ttl w
  = (r, w1) ->
  outcome_of r = Some o ->
  let run := dyndns self domain ipv4 ipv6 ttl w in
  fst run = Ok (outcome_line "A" o) /\
  http_status run = match o with Updated _ _ _ _ => 200 | Failed _ _ => 400 end /\
  In ("Content-Type", "text/plain") (headers (snd run)) /\
  calls (snd run) = calls w1 /\ srv (snd run) = srv w1.
Proof.
  intros Hdom Hallow H4 H6 Hst Hrun Ho run. subst run.
  rewrite (dyndns_one_family self domain ipv4 ipv6 ttl w w1 r o "A" ipv4 Hdom Hallow
             (or_introl (conj H4 (conj H6 (conj eq_refl eq_refl)))) Hrun Ho).
  pose proof (update_resource_record_frame (dns_client self) (param domain) "A"
                (param ipv4) ttl w) as [(_ & Hs1 & _) _].
  cbv zeta in Hs1. rewrite Hrun in Hs1. cbn [snd] in Hs1. rewrite Hst in Hs1.
  split; [reflexivity|]. split.
  - unfold http_status, set_header, after_outcome. cbn [snd status].
    destruct o; rewrite ?Hs1; reflexivity.
  - split; [|split; reflexivity].
    exact (set_header_sets "Content-Type" "text/plain" _).
Qed.

(** X15. A request with an IPv6 address only: the same for the AAAA record,
    and no A record is looked up. *)
Theorem dyndns_ipv6_only
    (self : Root) (domain ipv4 ipv6 : option string) (ttl : option Z)
    (w w1 : World) (r : result pyval) (o : outcome) :
  truthy_str domain = true ->
  allowlist_passes self (param domain) ->
  truthy_str ipv4 = false -> truthy_str ipv6 = true ->
  status w = None ->
  update_resource_record (dns_client self) (param domain) "AAAA" (param ipv6) ttl w
  = (r, w1) ->
  outcome_of r = Some o ->
  let run := dyndns self domain ipv4 ipv6 ttl w in
  fst run = Ok (outcome_line "AAAA" o) /\
  http_status run = match o with Updated _ _ _ _ => 200 | Failed _ _ => 400 end /\
  In ("Content-Type", "text/plain") (headers (snd run)) /\
  calls (snd run) = calls w1 /\ srv (snd run) = srv w1.
Proof.
  intros Hdom Hallow H4 H6 Hst Hrun Ho run. subst run.
  rewrite (dyndns_one_family self domain ipv4 ipv6 ttl w w1 r o "AAAA" ipv6 Hdom Hallow
             (or_intror (conj H4 (conj H6 (conj eq_refl eq_refl)))) Hrun Ho).
  pose proof (update_resource_record_frame (dns_client self) (param domain) "AAAA"
                (param ipv6) ttl w) as [(_ & Hs1 & _) _].
  cbv zeta in Hs1. rewrite Hrun in Hs1. cbn [snd] in Hs1. rewrite Hst in Hs1.
  split; [reflexivity|]. split.
  - unfold http_status, set_header, after_outcome. cbn [snd status].
    destruct o; rewrite ?Hs1; reflexivity.
  - split; [|split; reflexivity].
    exact (set_header_sets "Content-Type" "text/plain" _).
Qed.

(** X16. Only the API error is caught.  Any other exception of the A update
    leaves the handler at once: no line, no status, no log entry, and the
    AAAA record is not attempted; an exception of the AAAA update leaves the
    handler after the A outcome was dealt with. *)
Theorem dyndns_lets_other_exceptions_out
    (self : Root) (domain ipv4 ipv6 : option string) (ttl : option Z) (w : World) :
  truthy_str domain = true ->
  allowlist_passes self (param domain) ->
  truthy_str ipv4 = true ->
  (forall e w1,
      update_resource_record (dns_client self) (param domain) "A" (param ipv4) ttl w
      = (Raise e, w1) ->
      is_DNSAPIException e = false ->
      dyndns self domain ipv4 ipv6 ttl w = (Raise e, w1)) /\
  (forall ra w1 oa e w2,
      truthy_str ipv6 = true ->
      update_resource_record (dns_client self) (param domain) "A" (param ipv4) ttl w
      = (ra, w1) ->
      outcome_of ra = Some oa ->
      update_resource_record (dns_client self) (param domain) "AAAA" (param ipv6) ttl
        (after_outcome (param domain) (param ipv4) ttl "A" oa w1)
      = (Raise e, w2) ->
      is_DNSAPIException e = false ->
      dyndns self domain ipv4 ipv6 ttl w = (Raise e, w2)).
Proof.
  intros Hdom Hallow H4. split.
  - intros e w1 Hrun He. rewrite dyndns_updates by auto. rewrite H4.
    apply bind_raise. apply update_wrapper_escapes; assumption.
  - intros ra w1 oa e w2 H6 HA HoA HB He. rewrite dyndns_updates by auto.
    rewrite H4, H6.
    rewrite (bind_ok _ _ _ _ _ (update_wrapper_outcome _ _ _ [] _ _ _ _ _ _ HA HoA)).
    apply bind_raise. apply update_wrapper_escapes; assumption.
Qed.

(** X17. An updated record without one of [name], [content], [ttl] and
    [lastChangeDate] makes the handler raise [KeyError] for a missing member,
    although the provider has accepted the update. *)
Theorem dyndns_incomplete_record
    (self : Root) (domain ipv4 ipv6 : option string) (ttl : option Z)
    (w w1 : World) (fields : list (string * pyval)) :
  truthy_str domain = true ->
  allowlist_passes self (param domain) ->
  truthy_str ipv4 = true ->
  update_resource_record (dns_client self) (param domain) "A" (param ipv4) ttl w
  = (Ok (PDict fields), w1) ->
  (exists k, In k handler_reads /\ lookup k fields = None) ->
  exists k, In k handler_reads /\ lookup k fields = None /\
            dyndns self domain ipv4 ipv6 ttl w = (Raise (KeyError k), w1).
Proof.
  intros Hdom Hallow H4 Hrun Hmiss.
  destruct (update_wrapper_incomplete self (param domain) ttl [] "A" (param ipv4)
              w w1 fields Hrun Hmiss) as (k & Hin & Hk & Hw).
  exists k. repeat split; try assumption.
  rewrite dyndns_updates by auto. rewrite H4. apply bind_raise. exact Hw.
Qed.

(** X18. With both addresses and an outcome for each family the handler adds
    exactly two log entries, the A one before the AAAA one, and sets the
    content type [text/plain], whether the updates succeeded or failed. *)
Theorem dyndns_logs_each_outcome
    (self : Root) (domain ipv4 ipv6 : option string) (ttl : option Z)
    (w w1 w2 : World) (ra rb : result pyval) (oa ob : outcome) :
  truthy_str domain = true ->
  allowlist_passes self (param domain) ->
  truthy_str ipv4 = true -> truthy_str ipv6 = true ->
  update_resource_record (dns_client self) (param domain) "A" (param ipv4) ttl w
  = (ra, w1) ->
  outcome_of ra = Some oa ->
  update_resource_record (dns_client self) (param domain) "AAAA" (param ipv6) ttl
    (after_outcome (param domain) (param ipv4) ttl "A" oa w1)
  = (rb, w2) ->
  outcome_of rb = Some ob ->
  let run := dyndns self domain ipv4 ipv6 ttl w in
  log (snd run)
  = (log w ++ [outcome_log (param domain) (param ipv4) ttl "A" oa;
               outcome_log (param domain) (param ipv6) ttl "AAAA" ob])%list /\
  In ("Content-Type", "text/plain") (headers (snd run)).
Proof.
  intros Hdom Hallow H4 H6 HA HoA HB HoB run. subst run.
  rewrite (dyndns_both_outcomes _ _ _ _ _ _ _ _ _ _ _ _ Hdom Hallow H4 H6 HA HoA HB HoB).
  pose proof (update_resource_record_frame (dns_client self) (param domain) "A"
                (param ipv4) ttl w) as [(HlA & _ & _) _].
  pose proof (update_resource_record_frame (dns_client self) (param domain) "AAAA"
                (param ipv6) ttl (after_outcome (param domain) (param ipv4) ttl "A" oa w1))
    as [(HlB & _ & _) _].
  cbv zeta in HlA, HlB. rewrite HA in HlA. rewrite HB in HlB. cbn [snd fst] in *.
  split.
  - unfold set_header. cbn [snd log after_outcome]. rewrite HlB.
    cbn [log after_outcome]. rewrite HlA, <- app_assoc. reflexivity.
  - exact (set_header_sets "Content-Type" "text/plain" _).
Qed.

(** X19. A request stopped by a local check never gets the [text/plain]
    content type, and only the missing address is logged: a missing domain
    and a forbidden domain leave the log as it was, a request without address
    adds one error entry naming the domain. *)
Theorem dyndns_validation_log_and_headers
    (self : Root) (domain ipv4 ipv6 : option string) (ttl : option Z) (w : World) :
  let run := dyndns self domain ipv4 ipv6 ttl w in
  (truthy_str domain = false ->
   log (snd run) = log w /\ headers (snd run) = headers w) /\
  (forall l, truthy_str domain = true -> allowed_domains self = PList l -> l <> [] ->
             ~ In (PStr (param domain)) l ->
             log (snd run) = log w /\ headers (snd run) = headers w) /\
  (truthy_str domain = true -> allowlist_passes self (param domain) ->
   truthy_str ipv4 = false -> truthy_str ipv6 = false ->
   log (snd run)
   = (log w ++ [(ERROR, ("Update request for " ++ param domain
                          ++ " received, but neither a v4 nor a v6 address given.")%string)])%list /\
   headers (snd run) = headers w).
Proof.
  cbv zeta. split; [|split].
  - intros Hdom. rewrite (dyndns_missing_domain _ _ _ _ _ _ Hdom). split; reflexivity.
  - intros l Hdom Hl Hne Hnot.
    rewrite (dyndns_forbidden _ _ _ _ _ _ l Hdom Hl Hne Hnot). split; reflexivity.
  - intros Hdom Hallow H4 H6.
    rewrite (dyndns_no_address _ _ _ _ _ _ Hdom Hallow H4 H6). split; reflexivity.
Qed.

(** The requests of the update stage: at most two for each family that has
    an address. *)
Lemma update_stage_calls (self : Root) (domain : string) (ipv4 ipv6 : option string)
    (ttl : option Z) (w : World) :
  exists more,
    calls (snd (bind (if truthy_str ipv4
                      then update_wrapper self domain ttl [] "A" (param ipv4)
                      else ret [])
                  (fun results =>
                     bind (if truthy_str ipv6
                           then update_wrapper self domain ttl results "AAAA" (param ipv6)
                           else ret results)
                       (fun results =>
                          bind (set_header "Content-Type" "text/plain")
                            (fun _ => ret (join nl results)))) w))
    = (calls w ++ more)%list /\
    (List.length more <= (if truthy_str ipv4 then 2 else 0)
                         + (if truthy_str ipv6 then 2 else 0))%nat.
Proof.
  assert (Hfirst : exists more1,
             calls (snd ((if truthy_str ipv4
                          then update_wrapper self domain ttl [] "A" (param ipv4)
                          else ret []) w)) = (calls w ++ more1)%list /\
             (List.length more1 <= (if truthy_str ipv4 then 2 else 0))%nat).
  { destruct (truthy_str ipv4).
    - apply update_wrapper_calls.
    - exists []. rewrite app_nil_r. split; [reflexivity | cbn; lia]. }
  destruct Hfirst as (more1 & Hc1 & Hl1).
  unfold bind at 1.
  destruct ((if truthy_str ipv4
             then update_wrapper self domain ttl [] "A" (param ipv4)
             else ret []) w) as [[results|e] wa]; cbn [snd] in Hc1.
  2: { exists more1. cbn [snd]. split; [exact Hc1 | lia]. }
  assert (Hsecond : exists more2,
             calls (snd ((if truthy_str ipv6
                          then update_wrapper self domain ttl results "AAAA" (param ipv6)
                          else ret results) wa)) = (calls wa ++ more2)%list /\
             (List.length more2 <= (if truthy_str ipv6 then 2 else 0))%nat).
  { destruct (truthy_str ipv6).
    - apply update_wrapper_calls.
    - exists []. rewrite app_nil_r. split; [reflexivity | cbn; lia]. }
  destruct Hsecond as (more2 & Hc2 & Hl2).
  unfold bind at 1.
  destruct ((if truthy_str ipv6
             then update_wrapper self domain ttl results "AAAA" (param ipv6)
             else ret results) wa) as [[results2|e] wb]; cbn [snd] in Hc2.
  - exists (more1 ++ more2)%list. cbn. rewrite Hc2, Hc1, app_assoc, length_app.
    split; [reflexivity | lia].
  - exists (more1 ++ more2)%list. cbn. rewrite Hc2, Hc1, app_assoc, length_app.
    split; [reflexivity | lia].
Qed.

(** X20. Whatever the request and the answers of the provider, the handler
    only adds to the history of requests, and adds at most two requests for
    each address supplied, so at most four. *)
Theorem dyndns_request_bound
    (self : Root) (domain ipv4 ipv6 : option string) (ttl : option Z) (w : World) :
  exists more,
    calls (snd (dyndns self domain ipv4 ipv6 ttl w)) = (calls w ++ more)%list /\
    (List.length more <= (if truthy_str ipv4 then 2 else 0)
                         + (if truthy_str ipv6 then 2 else 0))%nat /\
    (List.length more <= 4)%nat.
Proof.
  assert (Hnone : forall w' : World, calls w' = calls w ->
            exists more,
              calls w' = (calls w ++ more)%list /\
              (List.length more <= (if truthy_str ipv4 then 2 else 0)
                                   + (if truthy_str ipv6 then 2 else 0))%nat /\
              (List.length more <= 4)%nat).
  { intros w' E. exists []. rewrite app_nil_r. cbn. repeat split; [exact E | lia | lia]. }
  unfold dyndns.
  destruct (truthy_str domain); cbn [negb]; [|apply Hnone; reflexivity].
  set (check := if truthy (allowed_domains self)
                then bind (lift (py_in (PStr (param domain)) (allowed_domains self)))
                       (fun member => ret (negb member))
                else ret false).
  assert (Hcheck : stateless check).
  { unfold check. destruct (truthy (allowed_domains self)).
    - apply stateless_bind; [apply stateless_lift | intros member; apply stateless_ret].
    - apply stateless_ret. }
  unfold bind at 1. specialize (Hcheck w).
  destruct (check w) as [[forbidden|e] w0]; cbn [snd] in Hcheck; subst w0;
    [|apply Hnone; reflexivity].
  destruct forbidden; [apply Hnone; reflexivity|].
  destruct (negb (truthy_str ipv4) && negb (truthy_str ipv6)); [apply Hnone; reflexivity|].
  destruct (update_stage_calls self (param domain) ipv4 ipv6 ttl w) as (more & Hc & Hl).
  exists more. split; [exact Hc|]. split; [exact Hl|].
  destruct (truthy_str ipv4), (truthy_str ipv6); lia.
Qed.

(** X21. An empty parameter is an absent one: an empty [domain], [ipv4] or
    [ipv6] is handled like a missing one, and a [ttl] of 0 like no ttl. *)
Theorem dyndns_empty_is_absent
    (self : Root) (domain ipv4 ipv6 : option string) (ttl : option Z) (w : World) :
  dyndns self (Some "") ipv4 ipv6 ttl w = dyndns self None ipv4 ipv6 ttl w /\
  dyndns self domain (Some "") ipv6 ttl w = dyndns self domain None ipv6 ttl w /\
  dyndns self domain ipv4 (Some "") ttl w = dyndns self domain ipv4 None ttl w /\
  dyndns self domain ipv4 ipv6 (Some 0) w = dyndns self domain ipv4 ipv6 None w.
Proof. repeat split; reflexivity. Qed.

End HandlerEdges.

(* ===================================================================== *)
(** ** Properties of the start-up *)
(* ===================================================================== *)

Section Startup.

Lemma and_then_ok {A B : Type} (r : result A) (k : A -> result B) (b : B) :
  and_then r k = Ok b -> exists a, r = Ok a /\ k a = Ok b.
Proof. destruct r as [a|e]; cbn; [eauto | discriminate]. Qed.

Lemma getitem_ok (v x : pyval) (k : string) :
  getitem v k = Ok x -> exists fields, v = PDict fields /\ lookup k fields = Some x.
Proof.
  destruct v; cbn; try discriminate.
  destruct (lookup k d) eqn:E; [|discriminate].
  intros H. injection H as <-. eauto.
Qed.

(** What a start-up that reaches [cherrypy.quickstart] has read. *)
Lemma main_ok (config : pyval) (bound : binding) (root : Root) :
  main config = Ok (bound, root) ->
  exists fields section api,
    config = PDict fields /\
    lookup "main" fields = Some (PDict section) /\
    ((lookup "bind_socket" fields <> None /\
      exists file, lookup "bind_socket" section = Some file /\ bound = SocketFile file) \/
     (lookup "bind_socket" fields = None /\
      exists host port, lookup "bind_host" section = Some host /\
                        lookup "bind_port" section = Some port /\
                        bound = SocketHostPort host port)) /\
    lookup "allowed_domains" section = Some (allowed_domains root) /\
    lookup "hosting_de_dns_api" fields = Some api /\
    client_init api = Ok (dns_client root) /\
    Root_init (dns_client root) (allowed_domains root) = Ok root.
Proof.
  unfold main. intros H.
  apply and_then_ok in H. destruct H as (has_socket & Hin & H).
  apply and_then_ok in H. destruct H as (bound' & Hbound & H).
  apply and_then_ok in H. destruct H as (section & Hmain & H).
  apply getitem_ok in Hmain. destruct Hmain as (fields & -> & Hmain).
  apply and_then_ok in H. destruct H as (ad & Had & H).
  apply getitem_ok in Had. destruct Had as (sec & -> & Had).
  apply and_then_ok in H. destruct H as (api & Hapi & H).
  apply getitem_ok in Hapi. destruct Hapi as (fields' & Hf & Hapi).
  injection Hf as <-.
  apply and_then_ok in H. destruct H as (client & Hclient & H).
  apply and_then_ok in H. destruct H as (root' & Hroot & H).
  injection H as -> ->.
  assert (Hr : root = mkRoot ad client).
  { revert Hroot. unfold Root_init.
    destruct (truthy ad && negb (is_list ad)); [discriminate|].
    intros E. injection E as <-. reflexivity. }
  exists fields, sec, api. subst root. cbn [allowed_domains dns_client].
  repeat split; try assumption.
  cbn [py_in] in Hin. cbn [getitem] in Hbound. rewrite Hmain in Hbound.
  destruct (lookup "bind_socket" fields) as [top|] eqn:Htop;
    injection Hin as <-; cbn [and_then getitem] in Hbound.
  - left. split; [discriminate|].
    destruct (lookup "bind_socket" sec) as [file|]; [|discriminate].
    injection Hbound as <-. eauto.
  - right. split; [reflexivity|].
    destruct (lookup "bind_host" sec) as [host|]; [|discriminate].
    cbn [and_then getitem] in Hbound.
    destruct (lookup "bind_port" sec) as [port|]; [|discriminate].
    injection Hbound as <-. eauto.
Qed.

(** X22. Where the server is bound: a start-up that succeeds binds the socket
    file [main.bind_socket] exactly when the configuration has a top-level
    key [bind_socket], and otherwise the host and port [main.bind_host] and
    [main.bind_port]. *)
Theorem main_binding (config : pyval) (bound : binding) (root : Root) :
  main config = Ok (bound, root) ->
  exists fields section,
    config = PDict fields /\
    lookup "main" fields = Some (PDict section) /\
    ((lookup "bind_socket" fields <> None /\
      exists file, lookup "bind_socket" section = Some file /\ bound = SocketFile file) \/
     (lookup "bind_socket" fields = None /\
      exists host port, lookup "bind_host" section = Some host /\
                        lookup "bind_port" section = Some port /\
                        bound = SocketHostPort host port)).
Proof.
  intros H. destruct (main_ok _ _ _ H) as (fields & section & api & Hc & Hm & Hb & _).
  exists fields, section. auto.
Qed.

(** X23. A socket file given in the [main] table only is not used: without a
    top-level [bind_socket] the start-up reads [main.bind_host] and
    [main.bind_port], and ends with [KeyError] when one of them is missing. *)
Theorem main_socket_in_main_table_only
    (fields section : list (string * pyval)) (file : pyval) :
  lookup "bind_socket" fields = None ->
  lookup "main" fields = Some (PDict section) ->
  lookup "bind_socket" section = Some file ->
  (lookup "bind_host" section = None ->
   main (PDict fields) = Raise (KeyError "bind_host")) /\
  (forall host, lookup "bind_host" section = Some host ->
                lookup "bind_port" section = None ->
                main (PDict fields) = Raise (KeyError "bind_port")) /\
  (forall root bound, main (PDict fields) = Ok (bound, root) ->
                      bound <> SocketFile file).
Proof.
  intros Htop Hmain Hfile. unfold main. cbn [py_in getitem]. rewrite Htop, Hmain.
  cbn [and_then getitem]. repeat split.
  - intros ->. reflexivity.
  - intros host -> Hp. cbn [and_then getitem]. rewrite Hp. reflexivity.
  - intros root bound.
    destruct (lookup "bind_host" section) as [host|]; [|discriminate].
    cbn [and_then getitem].
    destruct (lookup "bind_port" section) as [port|]; [|discriminate].
    cbn [and_then]. intros H.
    apply and_then_ok in H. destruct H as (ad & _ & H).
    apply and_then_ok in H. destruct H as (api & _ & H).
    apply and_then_ok in H. destruct H as (client & _ & H).
    apply and_then_ok in H. destruct H as (root' & _ & H).
    injection H as <- _. discriminate.
Qed.

(** X24. The handler a successful start-up mounts: its allow-list is
    [main.allowed_domains], which is falsy or a list, and its client carries
    the [zone], [token] and [default_ttl] of the table [hosting_de_dns_api]
    and the provider's fixed base URL. *)
Theorem main_mounts_configured_handler (config : pyval) (bound : binding) (root : Root) :
  main config = Ok (bound, root) ->
  exists fields section api,
    config = PDict fields /\
    lookup "main" fields = Some (PDict section) /\
    lookup "allowed_domains" section = Some (allowed_domains root) /\
    (truthy (allowed_domains root) = false \/ is_list (allowed_domains root) = true) /\
    lookup "hosting_de_dns_api" fields = Some (PDict api) /\
    lookup "zone" api = Some (zone (dns_client root)) /\
    lookup "token" api = Some (token (dns_client root)) /\
    lookup "default_ttl" api = Some (default_ttl (dns_client root)) /\
    base_url (dns_client root) = "https://secure.hosting.de/api/dns/v1/json".
Proof.
  intros H.
  destruct (main_ok _ _ _ H)
    as (fields & section & api & Hc & Hm & _ & Had & Hapi & Hclient & Hroot).
  revert Hclient. unfold client_init.
  destruct (getitem api "zone") as [z|] eqn:Hz; [|discriminate].
  destruct (getitem api "token") as [t|] eqn:Ht; [|discriminate].
  destruct (getitem api "default_ttl") as [d|] eqn:Hd; [|discriminate].
  intros E. injection E as E.
  apply getitem_ok in Hz, Ht, Hd.
  destruct Hz as (a1 & -> & Hz). destruct Ht as (a2 & E2 & Ht). injection E2 as <-.
  destruct Hd as (a3 & E3 & Hd). injection E3 as <-.
  exists fields, section, a1. rewrite <- E. cbn [zone token default_ttl base_url].
  repeat split; try assumption.
  revert Hroot. unfold Root_init.
  destruct (truthy (allowed_domains root)); [|auto].
  destruct (is_list (allowed_domains root)); [auto | discriminate].
Qed.


End Startup.


(* ===================================================================== *)
(** ** More concrete runs *)
(* ===================================================================== *)

Module MoreRuns.

Import Scripted.

(** A refused connection surfaces as it is. *)
Lemma api_request_transport_exception_witness :
  fst (api_request (R:=runtime) client "recordsFind" PNone (world []))
  = Raise RequestException.
Proof.
  rewrite (api_request_transport_exception (R:=runtime) client "recordsFind" PNone
             (world []) RequestException (remaining (world [])) eq_refl).
  reflexivity.
Defined.

(** A 200 answer with an HTML body raises [JSONDecodeError]. *)
Lemma api_request_malformed_envelope_witness :
  fst (api_request (R:=runtime) client "recordsFind" PNone (world [not_json]))
  = Raise JSONDecodeError.
Proof.
  destruct (api_request_malformed_envelope (R:=runtime) client "recordsFind" PNone
              (world [not_json]) not_json (remaining (world [])) eq_refl eq_refl)
    as (H & _).
  exact (H eq_refl).
Defined.

Lemma api_request_incomplete_error_entry_witness :
  fst (api_request (R:=runtime) client "recordsFind" PNone (world [ok_json no_text]))
  = Raise (KeyError "text").
Proof.
  edestruct (api_request_incomplete_error_entry (R:=runtime) client "recordsFind" PNone
               (world [ok_json no_text]) (ok_json no_text) (remaining (world [])))
    as (H & _); [reflexivity | reflexivity | reflexivity | reflexivity |].
  exact (H eq_refl).
Defined.

Lemma api_request_error_origin_witness :
  status_code (ok_json (failed 500 "internal error")) = 200 /\
  exists doc entry rest text,
    json_body (ok_json (failed 500 "internal error")) = Some (PDict doc) /\
    lookup "errors" doc = Some (PList (PDict entry :: rest)) /\
    lookup "code" entry = Some (PInt 500) /\
    lookup "text" entry = Some text /\
    PStr "internal error" = embedded_message (R:=runtime) entry text.
Proof.
  edestruct (api_request_error_origin (R:=runtime) client "recordsUpdate" PNone
               (world [ok_json (failed 500 "internal error")]))
    as [(Hne & _) | H]; [reflexivity | reflexivity | | exact H].
  exfalso. apply Hne. reflexivity.
Defined.

Lemma get_resource_record_id_returns_nonempty_witness :
  truthy (PStr "id-a") = true /\
  exists result fields,
    api_request (R:=runtime) client "recordsFind"
      (find_payload client "home.example.com" "A") (world [found [rec_a]])
    = (Ok result, sent (world [found [rec_a]]) (remaining (world []))
                    (base_url client ++ "/" ++ "recordsFind")
                    (find_payload client "home.example.com" "A")) /\
    getitem result "data" = Ok (PList [PDict fields]) /\
    lookup "id" fields = Some (PStr "id-a").
Proof.
  exact (get_resource_record_id_returns_nonempty (R:=runtime) client "home.example.com" "A"
           (world [found [rec_a]]) _ (PStr "id-a") eq_refl).
Defined.

Lemma get_resource_record_id_error_origin_witness :
  api_request (R:=runtime) client "recordsFind"
    (find_payload client "home.example.com" "A") (world [found []])
  = (Raise (DNSAPIException (PInt 404) (PStr "No matching record found.")),
     sent (world [found []]) (remaining (world []))
       (base_url client ++ "/" ++ "recordsFind")
       (find_payload client "home.example.com" "A")) \/
  In (PInt 404, PStr "No matching record found.")
     [(PInt 404, PStr "No matching record found.");
      (PInt 400, PStr "More than one matching record found, cannot continue.");
      (PInt 404, PStr "Could not find ID for record in response.")].
Proof.
  exact (get_resource_record_id_error_origin (R:=runtime) client "home.example.com" "A"
           (world [found []]) _ (PInt 404) (PStr "No matching record found.") eq_refl).
Defined.

Lemma get_resource_record_id_unreadable_payload_witness :
  fst (get_resource_record_id (R:=runtime) client "home.example.com" "A"
         (world [ok_json (envelope (PDict []))]))
  = Raise (KeyError "data").
Proof.
  edestruct (get_resource_record_id_unreadable_payload (R:=runtime) client
               "home.example.com" "A" (world [ok_json (envelope (PDict []))]))
    as (H & _); [reflexivity|].
  rewrite (H _ eq_refl eq_refl). reflexivity.
Defined.

Lemma update_resource_record_lookup_failure_witness :
  fst (update_resource_record (R:=runtime) client "home.example.com" "A" "203.0.113.5" None
         (world [found []; updated [rec_a]]))
  = Raise (DNSAPIException (PInt 404) (PStr "No matching record found.")) /\
  remaining (snd (update_resource_record (R:=runtime) client "home.example.com" "A"
                    "203.0.113.5" None (world [found []; updated [rec_a]])))
  = [updated [rec_a]].
Proof.
  edestruct (update_resource_record_lookup_failure (R:=runtime) client "home.example.com"
               "A" "203.0.113.5" None (world [found []; updated [rec_a]]))
    as (H & _); [reflexivity|].
  rewrite H. split; reflexivity.
Defined.

Lemma update_resource_record_requests_witness :
  exists payload rec,
    calls (snd (update_resource_record (R:=runtime) client "home.example.com" "A"
                  "203.0.113.5" None (world [found [rec_a]; updated [rec_a]])))
    = [((base_url client ++ "/" ++ "recordsFind")%string,
        find_payload client "home.example.com" "A");
       ((base_url client ++ "/" ++ "recordsUpdate")%string, payload)] /\
    sent_record payload = Some rec /\
    lookup "id" rec = Some (PStr "id-a") /\
    lookup "content" rec = Some (PStr "203.0.113.5").
Proof.
  edestruct (update_resource_record_requests (R:=runtime) client "home.example.com"
               "A" "203.0.113.5" None (world [found [rec_a]; updated [rec_a]]))
    as ((payload & rec & Hc & _ & _ & Hrec & Hid & _ & _ & Hcontent & _) & _);
    [reflexivity|].
  exists payload, rec. auto.
Defined.

Lemma update_resource_record_returns_matching_record_witness :
  is_record rec_a /\ py_eq (entry_id rec_a) (PStr "id-a") = true.
Proof.
  edestruct (update_resource_record_returns_matching_record (R:=runtime) client
               "home.example.com" "A" "203.0.113.5" None
               (world [found [rec_a]; updated [rec_aaaa; rec_a]]) _ rec_a eq_refl)
    as (id & w1 & result & entries & Hid & _ & _ & _ & _ & Hrec & Heq).
  split; [exact Hrec|]. injection Hid as <- _. exact Heq.
Defined.

Lemma update_resource_record_unreadable_response_witness :
  fst (update_resource_record (R:=runtime) client "home.example.com" "A" "203.0.113.5" None
         (world [found [rec_a]; ok_json (envelope PNone)]))
  = Raise AttributeError.
Proof.
  edestruct (update_resource_record_unreadable_response (R:=runtime) client
               "home.example.com" "A" "203.0.113.5" None
               (world [found [rec_a]; ok_json (envelope PNone)]))
    as (H & _); [reflexivity | reflexivity |].
  rewrite H; [reflexivity | discriminate].
Defined.

Lemma dyndns_ipv4_only_witness :
  let run := dyndns (R:=runtime) open_root (Some "home.example.com") (Some "203.0.113.5")
               None None (world [found [rec_a]; updated [rec_a]]) in
  fst run = Ok "Successfully updated A record for home.example.com to 203.0.113.5" /\
  http_status run = 200.
Proof.
  edestruct (dyndns_ipv4_only (R:=runtime) open_root (Some "home.example.com")
               (Some "203.0.113.5") None None (world [found [rec_a]; updated [rec_a]]))
    as (Hbody & Hstatus & _);
    [ reflexivity | left; reflexivity | reflexivity | reflexivity | reflexivity
    | reflexivity | reflexivity | ].
  split; [exact Hbody | exact Hstatus].
Defined.

Lemma dyndns_ipv6_only_witness :
  let run := dyndns (R:=runtime) open_root (Some "home.example.com") None
               (Some "2001:db8::5") None (world [found []]) in
  fst run = Ok "Failed to update AAAA record: 404 - No matching record found." /\
  http_status run = 400.
Proof.
  edestruct (dyndns_ipv6_only (R:=runtime) open_root (Some "home.example.com")
               None (Some "2001:db8::5") None (world [found []]))
    as (Hbody & Hstatus & _);
    [ reflexivity | left; reflexivity | reflexivity | reflexivity | reflexivity
    | reflexivity | reflexivity | ].
  split; [exact Hbody | exact Hstatus].
Defined.

(** With the provider unreachable the handler raises and the framework
    answers 500. *)
Lemma dyndns_lets_other_exceptions_out_witness :
  let run := dyndns (R:=runtime) open_root (Some "home.example.com") (Some "203.0.113.5")
               (Some "2001:db8::5") None (world []) in
  fst run = Raise RequestException /\ http_status run = 500 /\
  List.length (calls (snd run)) = 1%nat.
Proof.
  destruct (dyndns_lets_other_exceptions_out (R:=runtime) open_root
              (Some "home.example.com") (Some "203.0.113.5") (Some "2001:db8::5") None
              (world []) eq_refl (or_introl eq_refl) eq_refl) as (H & _).
  cbv zeta. rewrite (H RequestException _ eq_refl eq_refl). repeat split.
Defined.

Lemma dyndns_incomplete_record_witness :
  exists k,
    In k handler_reads /\
    fst (dyndns (R:=runtime) open_root (Some "home.example.com") (Some "203.0.113.5")
           None None (world [found [rec_a]; updated [bare_record]]))
    = Raise (KeyError k).
Proof.
  edestruct (dyndns_incomplete_record (R:=runtime) open_root (Some "home.example.com")
               (Some "203.0.113.5") None None
               (world [found [rec_a]; updated [bare_record]]))
    as (k & Hin & _ & Hrun);
    [ reflexivity | left; reflexivity | reflexivity | reflexivity
    | exists "lastChangeDate"; split; [cbn; auto 6 | reflexivity] | ].
  exists k. split; [exact Hin|]. rewrite Hrun. reflexivity.
Defined.

Lemma dyndns_logs_each_outcome_witness :
  List.length
    (log (snd (dyndns (R:=runtime) open_root (Some "home.example.com")
                 (Some "203.0.113.5") (Some "2001:db8::5") None (world a_ok_aaaa_fails))))
  = 2%nat.
Proof.
  edestruct (dyndns_logs_each_outcome (R:=runtime) open_root (Some "home.example.com")
               (Some "203.0.113.5") (Some "2001:db8::5") None (world a_ok_aaaa_fails))
    as (Hlog & _);
    [ reflexivity | left; reflexivity | reflexivity | reflexivity
    | reflexivity | reflexivity | reflexivity | reflexivity | ].
  rewrite Hlog. reflexivity.
Defined.

Lemma main_binding_witness :
  exists root, main config_host = Ok (SocketHostPort (PStr "127.0.0.1") (PInt 8080), root) /\
  exists fields section,
    config_host = PDict fields /\
    lookup "main" fields = Some (PDict section) /\
    lookup "bind_socket" fields = None.
Proof.
  eexists. split; [reflexivity|].
  edestruct (main_binding config_host) as (fields & section & Hc & Hm & Hb);
    [reflexivity|].
  exists fields, section. repeat split; try assumption.
  destruct Hb as [(_ & file & _ & Hfile) | (Hnone & _)]; [discriminate Hfile | exact Hnone].
Defined.

(** The socket file of the [main] table is not used, and the start-up fails
    for want of a host. *)
Lemma main_socket_in_main_table_only_witness :
  main (PDict config_socket) = Raise (KeyError "bind_host").
Proof.
  destruct (main_socket_in_main_table_only config_socket main_with_socket
              (PStr "/run/dyndns.sock") eq_refl eq_refl eq_refl) as (H & _).
  exact (H eq_refl).
Defined.

Lemma main_mounts_configured_handler_witness :
  exists root fields section api,
    main config_host = Ok (SocketHostPort (PStr "127.0.0.1") (PInt 8080), root) /\
    config_host = PDict fields /\
    lookup "main" fields = Some (PDict section) /\
    lookup "allowed_domains" section = Some (allowed_domains root) /\
    lookup "hosting_de_dns_api" fields = Some (PDict api) /\
    lookup "zone" api = Some (zone (dns_client root)).
Proof.
  eexists.
  edestruct (main_mounts_configured_handler config_host)
    as (fields & section & api & Hc & Hm & Had & _ & Hapi & Hz & _); [reflexivity|].
  exists fields, section, api. repeat split; assumption.
Defined.


(** A request without address adds one error entry and no content type. *)
Lemma dyndns_validation_log_and_headers_witness :
  let run := dyndns (R:=runtime) open_root (Some "home.example.com") None None None
               (world [found [rec_a]]) in
  log (snd run)
  = [(ERROR, "Update request for home.example.com received, but neither a v4 nor a v6 address given.")] /\
  headers (snd run) = [].
Proof.
  destruct (dyndns_validation_log_and_headers (R:=runtime) open_root
              (Some "home.example.com") None None None (world [found [rec_a]]))
    as (_ & _ & H).
  exact (H eq_refl (or_introl eq_refl) eq_refl eq_refl).
Defined.

End MoreRuns.
